(** * journal: request routing, controller dispatch and the edit flow

    A shallow embedding of the journal web application (Go):
    - [slugify], the controllers and the router [mux] of [main.go];
    - the test doubles [FakeSqlite], [FakeResponse] and the mock row
      cursors of the controller test file;
    - the Edit controller, which that test file exercises and which is
      modelled from the specification of the edit flow.

    Go strings are byte strings; they are modelled by [string] and, where
    the code works rune by rune, by lists of byte values ([N] below 256).
    The standard packages the program calls ([unicode/utf8], [regexp],
    [strings], [net/http]) are modelled from their documented behaviour in
    the modules [utf8], [regexp], [strings] and [http]. *)

From Stdlib Require Import ZArith NArith Ascii String List Bool Lia.
From stdpp Require Import gmap strings list.

Local Open Scope string_scope.
Local Open Scope list_scope.
Local Open Scope N_scope.

(** ** Byte strings *)

Definition bytes := list N.

Definition bytes_of_string (s : string) : bytes :=
  N_of_ascii <$> list_ascii_of_string s.

Definition string_of_bytes (b : bytes) : string :=
  string_of_list_ascii (ascii_of_N <$> b).

(** ** unicode/utf8 *)

Module utf8.

Definition RuneError : N := 0xFFFD.
Definition RuneSelf : N := 0x80.

Definition locb : N := 0x80.
Definition hicb : N := 0xBF.

(** One entry of the table [first]: an ASCII byte, an invalid leading
    byte, or the size of the sequence with the accepted range of its
    second byte. *)
Inductive firstInfo :=
| AS
| XX
| SZ (size : nat) (lo hi : N).

Definition first (b : N) : firstInfo :=
  if b <? 0x80 then AS
  else if b <? 0xC2 then XX
  else if b <? 0xE0 then SZ 2 locb hicb
  else if b =? 0xE0 then SZ 3 0xA0 hicb
  else if b <? 0xED then SZ 3 locb hicb
  else if b =? 0xED then SZ 3 locb 0x9F
  else if b <? 0xF0 then SZ 3 locb hicb
  else if b =? 0xF0 then SZ 4 0x90 hicb
  else if b <? 0xF4 then SZ 4 locb hicb
  else if b =? 0xF4 then SZ 4 locb 0x8F
  else XX.

Definition cont (b : N) : bool := (locb <=? b) && (b <=? hicb).

(** [DecodeRuneInString]: the first rune of [s] and its width in bytes;
    [(RuneError, 0)] on the empty string, [(RuneError, 1)] on an invalid
    encoding. *)
Definition DecodeRune (s : bytes) : N * nat :=
  match s with
  | [] => (RuneError, 0%nat)
  | s0 :: t =>
      match first s0 with
      | AS => (s0, 1%nat)
      | XX => (RuneError, 1%nat)
      | SZ sz lo hi =>
          if (length s <? sz)%nat then (RuneError, 1%nat) else
          match t with
          | [] => (RuneError, 1%nat)
          | s1 :: t1 =>
              if (s1 <? lo) || (hi <? s1) then (RuneError, 1%nat)
              else if (sz <=? 2)%nat then
                (N.lor (N.shiftl (N.land s0 0x1F) 6) (N.land s1 0x3F), 2%nat)
              else
              match t1 with
              | [] => (RuneError, 1%nat)
              | s2 :: t2 =>
                  if negb (cont s2) then (RuneError, 1%nat)
                  else if (sz <=? 3)%nat then
                    (N.lor (N.shiftl (N.land s0 0x0F) 12)
                       (N.lor (N.shiftl (N.land s1 0x3F) 6) (N.land s2 0x3F)),
                     3%nat)
                  else
                  match t2 with
                  | [] => (RuneError, 1%nat)
                  | s3 :: _ =>
                      if negb (cont s3) then (RuneError, 1%nat)
                      else
                        (N.lor (N.shiftl (N.land s0 0x07) 18)
                           (N.lor (N.shiftl (N.land s1 0x3F) 12)
                              (N.lor (N.shiftl (N.land s2 0x3F) 6)
                                 (N.land s3 0x3F))),
                         4%nat)
                  end
              end
          end
      end
  end.

(** A decoded rune together with the bytes it was read from. *)
Record rune := Rune { code : N; raw : bytes }.

(** The runes of a string, as a [for range] loop or the regexp input
    reader steps through them. *)
Fixpoint decode_fuel (n : nat) (s : bytes) : list rune :=
  match n with
  | O => []
  | S n' =>
      match s with
      | [] => []
      | _ :: _ =>
          let '(r, w) := DecodeRune s in
          Rune r (take w s) :: decode_fuel n' (drop w s)
      end
  end.

Definition decode (s : bytes) : list rune := decode_fuel (length s) s.

Definition encode (rs : list rune) : bytes := concat (raw <$> rs).

End utf8.

(** ** regexp

    The fragment of Go's regular expressions that the program's patterns
    are written in: literals, escapes, Perl classes, bracket classes,
    groups, alternation and the greedy operators [*], [+] and [?].
    [Compile] answers [None] where Go reports a syntax error and also on
    syntax outside the fragment (anchors, counted and lazy repetition,
    flags, numeric escapes, Unicode and POSIX classes, characters beyond
    ASCII in the pattern, a repetition of an expression that matches
    the empty string). Matching is leftmost-first, as in Go, and runs
    over the runes of the input. *)

Module regexp.
Import utf8.

Inductive Regexp :=
| EmptyMatch
| CharClass (negated : bool) (ranges : list (N * N))
| Concat (a b : Regexp)
| Alternate (a b : Regexp)
| Star (a : Regexp)
| Plus (a : Regexp)
| Quest (a : Regexp)
| Capture (a : Regexp).

(** *** Syntax *)

Definition ch (c : string) : N :=
  match c with
  | String a _ => N_of_ascii a
  | EmptyString => 0
  end.

Definition perl_d : list (N * N) := [(ch "0", ch "9")].
Definition perl_s : list (N * N) := [(9, 10); (12, 13); (32, 32)].
Definition perl_w : list (N * N) :=
  [(ch "0", ch "9"); (ch "A", ch "Z"); (ch "_", ch "_"); (ch "a", ch "z")].

Definition MaxRune : N := 0x10FFFF.

(** The complement of a sorted list of disjoint ranges. *)
Fixpoint negate_from (lo : N) (rs : list (N * N)) : list (N * N) :=
  match rs with
  | [] => if lo <=? MaxRune then [(lo, MaxRune)] else []
  | (a, b) :: rs' =>
      (if lo <? a then [(lo, a - 1)] else []) ++ negate_from (b + 1) rs'
  end.

Definition negateClass (rs : list (N * N)) : list (N * N) := negate_from 0 rs.

(** The Perl class named by the letter after a backslash. *)
Definition perl_class (c : N) : option (list (N * N)) :=
  if c =? ch "d" then Some perl_d
  else if c =? ch "D" then Some (negateClass perl_d)
  else if c =? ch "s" then Some perl_s
  else if c =? ch "S" then Some (negateClass perl_s)
  else if c =? ch "w" then Some perl_w
  else if c =? ch "W" then Some (negateClass perl_w)
  else None.

Definition is_alnum (c : N) : bool :=
  ((ch "0" <=? c) && (c <=? ch "9"))
  || ((ch "A" <=? c) && (c <=? ch "Z"))
  || ((ch "a" <=? c) && (c <=? ch "z")).

(** [parseEscape] on the character after the backslash: a punctuation
    character stands for itself, a few letters for control characters. *)
Definition escape_char (c : N) : option N :=
  if (c <? RuneSelf) && negb (is_alnum c) then Some c
  else if c =? ch "a" then Some 7
  else if c =? ch "f" then Some 12
  else if c =? ch "n" then Some 10
  else if c =? ch "r" then Some 13
  else if c =? ch "t" then Some 9
  else if c =? ch "v" then Some 11
  else None.

(** [parseClassChar]: one character of a bracket class. *)
Definition parseClassChar (t : bytes) : option (N * bytes) :=
  match t with
  | [] => None
  | c :: t' =>
      if c =? ch "\" then
        match t' with
        | [] => None
        | e :: t'' => e' ← escape_char e; Some (e', t'')
        end
      else if c <? RuneSelf then Some (c, t')
      else None
  end.

(** The items of a bracket class up to the closing bracket. *)
Fixpoint parseClassItems (n : nat) (first : bool) (t : bytes)
    (acc : list (N * N)) : option (list (N * N) * bytes) :=
  match n with
  | O => None
  | S n' =>
      match t with
      | [] => None
      | c :: t' =>
          if (c =? ch "]") && negb first then Some (acc, t')
          else
            match t' with
            | d :: t''  =>
                if (c =? ch "[") && (d =? ch ":") then None
                else if (c =? ch "\") && ((d =? ch "p") || (d =? ch "P")) then None
                else
                  match (if c =? ch "\" then perl_class d else None) with
                  | Some rs => parseClassItems n' false t'' (acc ++ rs)
                  | None =>
                      '(lo, t1) ← parseClassChar t;
                      match t1 with
                      | m :: e :: t2 =>
                          if (m =? ch "-") && negb (e =? ch "]") then
                            '(hi, t3) ← parseClassChar (e :: t2);
                            if hi <? lo then None
                            else parseClassItems n' false t3 (acc ++ [(lo, hi)])
                          else parseClassItems n' false t1 (acc ++ [(lo, lo)])
                      | _ => parseClassItems n' false t1 (acc ++ [(lo, lo)])
                      end
                  end
            | [] => None
            end
      end
  end.

(** [parseClass], entered after the opening bracket. *)
Definition parseClass (t : bytes) : option (Regexp * bytes) :=
  let '(neg, t1) :=
    match t with
    | c :: t' => if c =? ch "^" then (true, t') else (false, t)
    | [] => (false, t)
    end in
  '(rs, t2) ← parseClassItems (S (length t1)) true t1 [];
  Some (CharClass neg rs, t2).

Definition is_repeat_op (c : N) : bool :=
  (c =? ch "*") || (c =? ch "+") || (c =? ch "?").

Definition literal (c : N) : Regexp := CharClass false [(c, c)].

(** Whether an expression matches the empty string. *)
Fixpoint nullable (r : Regexp) : bool :=
  match r with
  | EmptyMatch => true
  | CharClass _ _ => false
  | Concat a b => nullable a && nullable b
  | Alternate a b => nullable a || nullable b
  | Star _ => true
  | Plus a => nullable a
  | Quest _ => true
  | Capture a => nullable a
  end.

(** A repetition operator applied to [r]. *)
Definition repeat (op : N) (r : Regexp) : option Regexp :=
  if op =? ch "?" then Some (Quest r)
  else if nullable r then None
  else if op =? ch "*" then Some (Star r)
  else Some (Plus r).

(** Recursive descent over the pattern; the fuel bounds the nesting. *)
Fixpoint parseAlternation (n : nat) (t : bytes) : option (Regexp * bytes) :=
  match n with
  | O => None
  | S n' =>
      '(a, t1) ← parseConcat n' t;
      match t1 with
      | c :: t2 =>
          if c =? ch "|" then
            '(b, t3) ← parseAlternation n' t2; Some (Alternate a b, t3)
          else Some (a, t1)
      | [] => Some (a, t1)
      end
  end
with parseConcat (n : nat) (t : bytes) : option (Regexp * bytes) :=
  match n with
  | O => None
  | S n' =>
      match t with
      | [] => Some (EmptyMatch, t)
      | c :: _ =>
          if (c =? ch "|") || (c =? ch ")") then Some (EmptyMatch, t)
          else
            '(a, t1) ← parseRepeat n' t;
            '(b, t2) ← parseConcat n' t1;
            Some (match b with EmptyMatch => a | _ => Concat a b end, t2)
      end
  end
with parseRepeat (n : nat) (t : bytes) : option (Regexp * bytes) :=
  match n with
  | O => None
  | S n' =>
      '(a, t1) ← parseAtom n' t;
      match t1 with
      | op :: t2 =>
          if is_repeat_op op then
            match t2 with
            | op2 :: _ =>
                if is_repeat_op op2 then None
                else r ← repeat op a; Some (r, t2)
            | [] => r ← repeat op a; Some (r, t2)
            end
          else Some (a, t1)
      | [] => Some (a, t1)
      end
  end
with parseAtom (n : nat) (t : bytes) : option (Regexp * bytes) :=
  match n with
  | O => None
  | S n' =>
      match t with
      | [] => None
      | c :: t1 =>
          if c =? ch "(" then
            match t1 with
            | q :: _ =>
                if q =? ch "?" then None
                else
                  '(a, t2) ← parseAlternation n' t1;
                  match t2 with
                  | p :: t3 => if p =? ch ")" then Some (Capture a, t3) else None
                  | [] => None
                  end
            | [] => None
            end
          else if c =? ch "[" then parseClass t1
          else if c =? ch "." then Some (CharClass true [(10, 10)], t1)
          else if c =? ch "\" then
            match t1 with
            | e :: t2 =>
                match perl_class e with
                | Some rs => Some (CharClass false rs, t2)
                | None => e' ← escape_char e; Some (literal e', t2)
                end
            | [] => None
            end
          else if is_repeat_op c || (c =? ch "{") || (c =? ch "}")
                  || (c =? ch "]") || (c =? ch "^") || (c =? ch "$")
                  || (c =? ch ")") || (c =? ch "|") then None
          else if c <? RuneSelf then Some (literal c, t1)
          else None
      end
  end.

(** [regexp.Compile]: [None] stands for the error result. *)
Definition Compile (expr : string) : option Regexp :=
  let t := bytes_of_string expr in
  match parseAlternation (3 * length t + 3) t with
  | Some (r, []) => Some r
  | _ => None
  end.

(** *** Matching *)

Definition in_ranges (rs : list (N * N)) (c : N) : bool :=
  existsb (fun '(lo, hi) => (lo <=? c) && (c <=? hi)) rs.

Definition in_class (negated : bool) (rs : list (N * N)) (c : N) : bool :=
  xorb negated (in_ranges rs c).

(** Greedy iteration of [step]; an iteration that consumes nothing is
    not taken. *)
Fixpoint star_loop {R : Type}
    (step : list rune -> (list rune -> option R) -> option R)
    (n : nat) (s : list rune) (k : list rune -> option R) : option R :=
  match n with
  | O => k s
  | S n' =>
      match step s (fun s1 =>
               if (length s1 <? length s)%nat
               then star_loop step n' s1 k else None) with
      | Some x => Some x
      | None => k s
      end
  end.

(** Backtracking match of [r] at the head of [s]; [k] receives what is
    left of the input. The first success in priority order wins. *)
Fixpoint exec {R : Type} (r : Regexp) (s : list rune)
    (k : list rune -> option R) : option R :=
  match r with
  | EmptyMatch => k s
  | CharClass neg rs =>
      match s with
      | c :: s' => if in_class neg rs (code c) then k s' else None
      | [] => None
      end
  | Concat a b => exec a s (fun s1 => exec b s1 k)
  | Alternate a b =>
      match exec a s k with
      | Some x => Some x
      | None => exec b s k
      end
  | Star a => star_loop (exec a) (length s) s k
  | Plus a => exec a s (fun s1 => star_loop (exec a) (length s1) s1 k)
  | Quest a =>
      match exec a s k with
      | Some x => Some x
      | None => k s
      end
  | Capture a => exec a s k
  end.

(** The number of runes of the match of [r] at the head of [s]. *)
Definition match_here (r : Regexp) (s : list rune) : option nat :=
  exec r s (fun rest => Some (length s - length rest)%nat).

(** [doExecute] from position [pos]: bounds of the leftmost match that
    starts at [pos] or later, as rune indexes. *)
Fixpoint search (r : Regexp) (s : list rune) (pos : nat) : option (nat * nat) :=
  match match_here r s with
  | Some len => Some (pos, (pos + len)%nat)
  | None =>
      match s with
      | [] => None
      | _ :: s' => search r s' (S pos)
      end
  end.

Definition doExecute (r : Regexp) (inp : list rune) (pos : nat) : option (nat * nat) :=
  search r (drop pos inp) pos.

Definition slice (inp : list rune) (lo hi : nat) : list rune :=
  take (hi - lo) (drop lo inp).

(** [allMatches] with no limit on the number of matches: an empty match
    right after the previous match is skipped. *)
Fixpoint allMatches (n : nat) (r : Regexp) (inp : list rune) (pos : nat)
    (prevMatchEnd : option nat) : list (nat * nat) :=
  match n with
  | O => []
  | S n' =>
      if (length inp <? pos)%nat then [] else
      match doExecute r inp pos with
      | None => []
      | Some (m0, m1) =>
          let empty := (m1 =? pos)%nat in
          let accept := negb (empty && bool_decide (prevMatchEnd = Some m0)) in
          let pos' := if empty then S pos else m1 in
          (if accept then [(m0, m1)] else [])
            ++ allMatches n' r inp pos' (Some m1)
      end
  end.

(** The method [MatchString] of a compiled expression. *)
Definition MatchRegexp (r : Regexp) (s : string) : bool :=
  bool_decide (is_Some (doExecute r (decode (bytes_of_string s)) 0)).

(** The method [FindAllString] with [n = -1]; the nil result is the
    empty list. *)
Definition FindAllString (r : Regexp) (s : string) : list string :=
  let inp := decode (bytes_of_string s) in
  (fun '(lo, hi) => string_of_bytes (encode (slice inp lo hi)))
    <$> allMatches (length inp + 2) r inp 0 None.

(** [replaceAll]: the unmatched stretches are copied and every match is
    replaced, except an empty match right after another match. *)
Fixpoint replaceAll (n : nat) (r : Regexp) (inp : list rune) (repl : bytes)
    (searchPos lastMatchEnd : nat) : bytes :=
  match n with
  | O => encode (drop lastMatchEnd inp)
  | S n' =>
      if (length inp <? searchPos)%nat then encode (drop lastMatchEnd inp) else
      match doExecute r inp searchPos with
      | None => encode (drop lastMatchEnd inp)
      | Some (a0, a1) =>
          encode (slice inp lastMatchEnd a0)
            ++ (if (lastMatchEnd <? a1)%nat || (a0 =? 0)%nat then repl else [])
            ++ replaceAll n' r inp repl
                 (if (a1 <? S searchPos)%nat then S searchPos else a1) a1
      end
  end.

(** The method [ReplaceAllString] for a replacement without [$], which
    is copied as it stands. *)
Definition ReplaceAllString (r : Regexp) (src repl : string) : string :=
  let inp := decode (bytes_of_string src) in
  string_of_bytes
    (replaceAll (length inp + 2) r inp (bytes_of_string repl) 0 0).

End regexp.

(** The interface of the package, as far as the program uses it. The
    router is stated over any implementation; [goRegexp] is the one
    above. *)
Class RegexpPackage := {
  Regexp : Type;
  Compile : string -> option Regexp;
  MatchRegexp : Regexp -> string -> bool;
  FindAllString : Regexp -> string -> list string;
  ReplaceAllString : Regexp -> string -> string -> string
}.

#[export] Instance goRegexp : RegexpPackage := {
  Regexp := regexp.Regexp;
  Compile := regexp.Compile;
  MatchRegexp := regexp.MatchRegexp;
  FindAllString := regexp.FindAllString;
  ReplaceAllString := regexp.ReplaceAllString
}.

(** ** strings *)

Module strings.

(** [strings.HasPrefix] *)
Fixpoint HasPrefix (s prefix : string) : bool :=
  match prefix, s with
  | EmptyString, _ => true
  | String p prefix', String c s' => Ascii.eqb c p && HasPrefix s' prefix'
  | String _ _, EmptyString => false
  end.

(** [strings.Contains] *)
Fixpoint Contains (s substr : string) : bool :=
  HasPrefix s substr ||
  match s with
  | EmptyString => false
  | String _ s' => Contains s' substr
  end.

Definition isASCII (s : string) : bool :=
  forallb (fun c => c <? utf8.RuneSelf) (bytes_of_string s).

Definition lowerByte (c : N) : N :=
  if (regexp.ch "A" <=? c) && (c <=? regexp.ch "Z") then c + 32 else c.

Section ToLower.
(** [strings.Map(unicode.ToLower, s)], the path [ToLower] takes on a
    string that is not pure ASCII; it consults the Unicode case
    tables, which are not part of this development. *)
Variable mapUnicodeToLower : string -> string.

(** [strings.ToLower] *)
Definition ToLower (s : string) : string :=
  if isASCII s then string_of_bytes (lowerByte <$> bytes_of_string s)
  else mapUnicodeToLower s.
End ToLower.

End strings.

(** ** Panics and fatal exits *)

(** What a call comes to: a value, a run-time panic, or the process
    ending in [log.Fatal]. *)
Inductive Outcome (A : Type) :=
| Done (a : A)
| Panic (msg : string)
| Fatal (msg : string).
Arguments Done {A} a.
Arguments Panic {A} msg.
Arguments Fatal {A} msg.

Definition bind {A B : Type} (m : Outcome A) (f : A -> Outcome B) : Outcome B :=
  match m with
  | Done a => f a
  | Panic msg => Panic msg
  | Fatal msg => Fatal msg
  end.

Declare Scope outcome_scope.
Delimit Scope outcome_scope with outcome.
Notation "'let*' x := m 'in' k" := (bind m (fun x => k))
  (at level 10, x pattern, m at level 100, k at level 200) : outcome_scope.
Local Open Scope outcome_scope.

Definition nilDereference : string :=
  "runtime error: invalid memory address or nil pointer dereference".

(** ** The model and [slugify] *)

(** Journal model *)
Record Journal := mkJournal {
  id : Z;
  slug : string;
  title : string;
  date : string;
  content : string
}.

(** Journals collection of journals *)
Record Journals := mkJournals { journals : list Journal }.

Section regexp_calls.
Context `{RegexpPackage}.

(** [regexp.MustCompile]: panics where [Compile] reports an error. *)
Definition MustCompile (expr : string) : Outcome Regexp :=
  match Compile expr with
  | Some re => Done re
  | None => Panic ("regexp: Compile(" +:+ expr +:+ "): error")
  end.

(** [regexp.MatchString]: the match result and whether compiling the
    pattern failed. *)
Definition MatchString (pattern s : string) : bool * bool :=
  match Compile pattern with
  | Some re => (MatchRegexp re s, false)
  | None => (false, true)
  end.

Variable mapUnicodeToLower : string -> string.

Definition slugify (s : string) : Outcome string :=
  let* re := MustCompile "[\W+]" in
  Done (strings.ToLower mapUnicodeToLower (ReplaceAllString re s "-")).
End regexp_calls.

(** ** net/http *)

Module http.

(** The parts of [*http.Request] the handlers read: the method, the
    path of the URL, the parsed URL query and the parsed body form,
    both in order of appearance. *)
Record Request := mkRequest {
  Method : string;
  Path : string;
  Query : list (string * string);
  PostForm : list (string * string)
}.

(** First value of [key] in a list of key-value pairs. *)
Fixpoint first_value (key : string) (kvs : list (string * string)) : option string :=
  match kvs with
  | [] => None
  | (k, v) :: kvs' => if String.eqb k key then Some v else first_value key kvs'
  end.

(** [Request.FormValue]: body parameters take precedence over the URL
    query; the empty string when the key is absent. *)
Definition FormValue (r : Request) (key : string) : string :=
  default "" (first_value key (PostForm r ++ Query r)).

(** [http.Header] *)
Definition Header := gmap string (list string).

Definition Header_Set (h : gmap string (list string)) (key value : string) :
    gmap string (list string) :=
  <[key := [value]]> h.

Definition Header_Get (h : gmap string (list string)) (key : string) : string :=
  match h !! key with
  | Some (v :: _) => v
  | _ => ""
  end.

(** The response writer: the test double [FakeResponse], which keeps
    what is written, the headers and the last status code set. *)
Record FakeResponse := mkResponse {
  Content : string;
  Headers : gmap string (list string);
  StatusCode : Z
}.

Definition Reset (f : FakeResponse) : FakeResponse :=
  {| Content := ""; Headers := ∅; StatusCode := 0 |}.

(** [Write] joins the bytes to the content. *)
Definition Write (f : FakeResponse) (b : string) : FakeResponse :=
  {| Content := Content f +:+ b; Headers := Headers f; StatusCode := StatusCode f |}.

Definition WriteHeader (f : FakeResponse) (statusCode : Z) : FakeResponse :=
  {| Content := Content f; Headers := Headers f; StatusCode := statusCode |}.

(** [w.Header().Set(key, value)]: the map [Header] hands out is the one
    the response keeps. *)
Definition SetHeader (f : FakeResponse) (key value : string) : FakeResponse :=
  {| Content := Content f;
     Headers := Header_Set (Headers f) key value;
     StatusCode := StatusCode f |}.

Definition StatusFound : Z := 302.
Definition StatusNotFound : Z := 404.

Definition newline : string := String (ascii_of_nat 10) EmptyString.
Definition quote : string := String (ascii_of_nat 34) EmptyString.

(** [http.Error] *)
Definition Error (w : FakeResponse) (error : string) (code : Z) : FakeResponse :=
  let w := SetHeader w "Content-Type" "text/plain; charset=utf-8" in
  let w := SetHeader w "X-Content-Type-Options" "nosniff" in
  let w := WriteHeader w code in
  Write w (error +:+ newline).

(** [http.NotFound] *)
Definition NotFound (w : FakeResponse) (r : Request) : FakeResponse :=
  Error w "404 page not found" StatusNotFound.

(** [http.Redirect] to a rooted target that the clean-up of the URL
    leaves as it is (no dot segment, no repeated slash, ASCII only),
    and with a status code of 302: the way the program calls it. The
    hyperlink body goes out on GET alone. *)
Definition Redirect (w : FakeResponse) (r : Request) (url : string) (code : Z) :
    FakeResponse :=
  let hadCT := bool_decide (is_Some (Headers w !! "Content-Type")) in
  let w := SetHeader w "Location" url in
  let w :=
    if negb hadCT && (String.eqb (Method r) "GET" || String.eqb (Method r) "HEAD")
    then SetHeader w "Content-Type" "text/html; charset=utf-8" else w in
  let w := WriteHeader w code in
  if negb hadCT && String.eqb (Method r) "GET"
  then Write w ("<a href=" +:+ quote +:+ url +:+ quote +:+ ">Found</a>."
                  +:+ newline +:+ newline)
  else w.

End http.
Import http.

(** ** database/sql *)

(** The database behind the global [db]. A statement is prepared and
    then executed; both steps may fail. [Exec] hands back the Go pair of
    a result, which may be nil, and an error, which may be nil. *)
Class Database (DB : Type) := {
  Stmt : Type;
  Result : Type;
  Prepare : DB -> string -> DB * (Stmt + string);
  Exec : DB -> Stmt -> list string -> DB * (option Result * option string);
  LastInsertId : Result -> Z
}.

(** ** html/template *)

(** ViewData Data for view *)
Record ViewData := mkViewData { Params : list string }.

(** Template files live on disk; parsing may fail, in which case the
    template pointer is nil. Executing a template on some data, or on
    nil, writes some text. *)
Class Templates := {
  Template : Type;
  ParseFiles : list string -> option Template;
  ExecuteTemplate : Template -> string -> option ViewData -> string;
  Execute : Template -> option ViewData -> string
}.

(** ** Controllers *)

(** Controller defn *)
Record Controller := mkController { params : list string }.

(** The controllers of [main.go]; each embeds a [Controller]. *)
Inductive AppController :=
| IndexController (c : Controller)
| NewController (c : Controller)
| ViewController (c : Controller).

Definition embedded (a : AppController) : Controller :=
  match a with
  | IndexController c | NewController c | ViewController c => c
  end.

(** SetParams on the controller *)
Definition Controller_SetParams (c : Controller) (p : list string) : Controller :=
  {| params := p |}.

(** ControllerInterface provide the interface for the controller. [Run]
    works on the response writer and on the database and may change the
    controller it is called on. *)
Class ControllerInterface (C DB : Type) := {
  Run : C -> FakeResponse -> Request -> DB -> Outcome (C * FakeResponse * DB);
  SetParams : C -> list string -> C
}.

(** [checkErr] on the error of a call, handing on the value of the call
    when the error is nil. *)
Definition checkErr {A : Type} (r : A + string) : Outcome A :=
  match r with
  | inl a => Done a
  | inr err => Fatal ("Error reported: " +:+ err)
  end.

Section Controllers.
Context {DB : Type} `{Database DB} `{Templates} `{RegexpPackage}.
Variable mapUnicodeToLower : string -> string.

Definition layout (view : string) : list string :=
  ["./src/journal/views/_layout/header.tmpl";
   "./src/journal/views/_layout/footer.tmpl";
   "./src/journal/views/" +:+ view +:+ ".tmpl"].

(** The four template executions every page is made of. *)
Definition render (view : string) (data : option ViewData)
    (w : FakeResponse) : Outcome FakeResponse :=
  match ParseFiles (layout view) with
  | None => Panic nilDereference
  | Some t =>
      let w := Write w (ExecuteTemplate t "header" None) in
      let w := Write w (ExecuteTemplate t "content" data) in
      let w := Write w (ExecuteTemplate t "footer" None) in
      Done (Write w (Execute t None))
  end.

(** Run IndexController *)
Definition IndexController_Run (c : Controller) (w : FakeResponse) (r : Request)
    (db : DB) : Outcome (Controller * FakeResponse * DB) :=
  let* w := render "index" None w in
  Done (c, w, db).

(** Run NewController *)
Definition NewController_Run (c : Controller) (w : FakeResponse) (r : Request)
    (db : DB) : Outcome (Controller * FakeResponse * DB) :=
  if String.eqb (Method r) "GET" then
    let* w := render "new" None w in
    Done (c, w, db)
  else
    let '(db, prepared) :=
      Prepare db "INSERT INTO `journal`(`slug`, `title`, `date`, `content`) VALUES(?,?,?,?)" in
    let* stmt := checkErr prepared in
    let* s := slugify mapUnicodeToLower (FormValue r "title") in
    let j := mkJournal 0 s (FormValue r "title") (FormValue r "date")
               (FormValue r "content") in
    let '(db, (res, err)) := Exec db stmt [slug j; title j; date j; content j] in
    match res with
    | None => Panic nilDereference
    | Some res =>
        let j := mkJournal (LastInsertId res) (slug j) (title j) (date j) (content j) in
        Done (c, Redirect w r "/" 302, db)
    end.

(** Run ViewController *)
Definition ViewController_Run (c : Controller) (w : FakeResponse) (r : Request)
    (db : DB) : Outcome (Controller * FakeResponse * DB) :=
  let v := {| Params := params c |} in
  let* w := render "view" (Some v) w in
  Done (c, w, db).

#[export] Instance AppController_interface : ControllerInterface AppController DB := {
  Run a w r db :=
    match a with
    | IndexController c =>
        let* (c, w, db) := IndexController_Run c w r db in Done (IndexController c, w, db)
    | NewController c =>
        let* (c, w, db) := NewController_Run c w r db in Done (NewController c, w, db)
    | ViewController c =>
        let* (c, w, db) := ViewController_Run c w r db in Done (ViewController c, w, db)
    end;
  SetParams a p :=
    match a with
    | IndexController c => IndexController (Controller_SetParams c p)
    | NewController c => NewController (Controller_SetParams c p)
    | ViewController c => ViewController (Controller_SetParams c p)
    end
}.
End Controllers.

(** ** The router *)

Record route := mkRoute {
  method : string;
  uri : string;
  matchable : bool;
  controller : nat
}.

Record mux := mkMux { routes : list route }.

Definition add (m : mux) (t u : string) (a : bool) (c : nat) : mux :=
  {| routes := routes m ++ [mkRoute t u a c] |}.

(** A method call on a controller, as the router makes it. *)
Inductive Call :=
| CallSetParams (c : nat) (p : list string)
| CallRun (c : nat).

(** What a request is served in: the controller objects the routes point
    to (a route holds the index of its controller, so that two routes
    may share one object and a controller keeps its fields from one
    request to the next), the response writer, the database, the lines
    logged and the calls made on controllers so far. *)
Record Server (C DB : Type) := mkServer {
  heap : list C;
  response : FakeResponse;
  database : DB;
  logged : list string;
  calls : list Call
}.
Arguments mkServer {C DB}.
Arguments heap {C DB}.
Arguments response {C DB}.
Arguments database {C DB}.
Arguments logged {C DB}.
Arguments calls {C DB}.

Section Router.
Context {C DB : Type} `{ControllerInterface C DB} `{RegexpPackage}.

Definition Printf (line : string) (st : Server C DB) : Server C DB :=
  mkServer (heap st) (response st) (database st) (logged st ++ [line]) (calls st).

(** [route.controller.Run(w, r)]; a route whose controller is nil
    panics. *)
Definition callRun (c : nat) (st : Server C DB) (r : Request) : Outcome (Server C DB) :=
  match heap st !! c with
  | None => Panic nilDereference
  | Some ctl =>
      let* (ctl', w, db) := Run ctl (response st) r (database st) in
      Done (mkServer (<[c := ctl']> (heap st)) w db (logged st)
              (calls st ++ [CallRun c]))
  end.

(** [route.controller.SetParams(p)] *)
Definition callSetParams (c : nat) (p : list string) (st : Server C DB) :
    Outcome (Server C DB) :=
  match heap st !! c with
  | None => Panic nilDereference
  | Some ctl =>
      Done (mkServer (<[c := SetParams ctl p]> (heap st)) (response st)
              (database st) (logged st) (calls st ++ [CallSetParams c p]))
  end.

(** The method test both branches of the loop make. *)
Definition methodMatches (r : Request) (rt : route) : bool :=
  String.eqb (Method r) (method rt)
  || (String.eqb (Method r) "" && String.eqb (method rt) "GET").

(** The loop over [m.routes] and the not-found reply after it. *)
Fixpoint serveRoutes (rs : list route) (st : Server C DB) (r : Request) :
    Outcome (Server C DB) :=
  match rs with
  | [] =>
      let st := Printf (Method r +:+ ": " +:+ Path r +:+ " 404 Not Found") st in
      Done (mkServer (heap st) (NotFound (response st) r) (database st)
              (logged st) (calls st))
  | rt :: rs' =>
      if String.eqb (Path r) (uri rt) && methodMatches r rt then
        callRun (controller rt) st r
      else if matchable rt then
        let '(matched, _) := MatchString (uri rt) (Path r) in
        if matched && methodMatches r rt then
          let* re := MustCompile (uri rt) in
          let* st := callSetParams (controller rt) (FindAllString re (Path r)) st in
          callRun (controller rt) st r
        else serveRoutes rs' st r
      else serveRoutes rs' st r
  end.

Definition ServeHTTP (m : mux) (st : Server C DB) (r : Request) :
    Outcome (Server C DB) :=
  serveRoutes (routes m) (Printf (Method r +:+ ": " +:+ Path r) st) r.

(** *** The loop read as first-match dispatch

    The definitions below follow the description of the router, not
    its code; [serveRoutes] is compared with them further down. *)

(** The test of the first branch: the path is the route's string. *)
Definition literalMatch (r : Request) (rt : route) : bool :=
  String.eqb (Path r) (uri rt) && methodMatches r rt.

(** The test of the second branch: the route is a pattern that the
    path satisfies. *)
Definition patternMatch (r : Request) (rt : route) : bool :=
  matchable rt && fst (MatchString (uri rt) (Path r)) && methodMatches r rt.

Definition routeMatches (r : Request) (rt : route) : bool :=
  literalMatch r rt || patternMatch r rt.

(** What is done with the route chosen. *)
Definition dispatch (rt : route) (st : Server C DB) (r : Request) :
    Outcome (Server C DB) :=
  if literalMatch r rt then callRun (controller rt) st r
  else
    let* re := MustCompile (uri rt) in
    let* st := callSetParams (controller rt) (FindAllString re (Path r)) st in
    callRun (controller rt) st r.

(** The reply when no route is chosen. *)
Definition notFoundReply (st : Server C DB) (r : Request) : Server C DB :=
  mkServer (heap st) (NotFound (response st) r) (database st)
    (logged st ++ [Method r +:+ ": " +:+ Path r +:+ " 404 Not Found"])
    (calls st).

Definition firstMatch (m : mux) (r : Request) : option route :=
  find (routeMatches r) (routes m).
End Router.

(** The routes [main] registers, and the controller objects behind them:
    one fresh object per route. *)
Definition main_mux : mux :=
  let m := mkMux [] in
  let m := add m "GET" "/" false 0 in
  let m := add m "GET" "/new" false 1 in
  let m := add m "POST" "/new" false 2 in
  add m "GET" "\/([\w\-]+)" true 3.

Definition main_heap : list AppController :=
  [IndexController (mkController []);
   NewController (mkController []);
   NewController (mkController []);
   ViewController (mkController [])].

(** ** The edit flow (package [web]) *)

Module web.

(** *** The Data Store and Row Cursor contracts *)

(** Modelled from the spec: the statements the Edit controller sends are
    not among the sources; the edit flow has two, the query by slug and
    the update of title, date and content for a slug. Their arguments
    are, in this order, the slug for the first, and the title, the date,
    the content and the slug for the second. *)
Inductive Statement :=
| SelectBySlug
| UpdateBySlug.

(** Modelled from the spec: the text of the two statements is not among
    the sources; it is written here after the INSERT of [main.go]. No
    store of this development looks at it. *)
Definition sqlText (st : Statement) : string :=
  match st with
  | SelectBySlug => "SELECT * FROM `journal` WHERE `slug` = ? LIMIT 1"
  | UpdateBySlug =>
      "UPDATE `journal` SET `title` = ?, `date` = ?, `content` = ? WHERE `slug` = ?"
  end.

(** Modelled from the spec: the interface [model.Rows] is not among the
    sources; the Row Cursor contract has [close], [columns], [next],
    which advances and tells whether a row is there, and [scan], which
    reads the current row into the destinations. [None] is the nil
    error. *)
Class RowCursor (R : Type) := {
  Close : R -> option string;
  Columns : R -> list string;
  Next : R -> R * bool;
  Scan : R -> Journal -> Journal
}.

(** Modelled from the spec: the database interface of the controllers is
    not among the sources; the Data Store contract has [query], which
    gives a cursor, and [execute], which gives the last inserted id and
    the number of rows affected. [None] stands for the error result. *)
Class DataStore (S : Type) := {
  Cursor : Type;
  Cursor_rows :: RowCursor Cursor;
  query : S -> Statement -> list string -> S * option Cursor;
  execute : S -> Statement -> list string -> S * option (Z * Z)
}.

(** *** The test doubles of the controller tests *)

(** [MockEmptyRows] and [MockJournalSingleRow], the two kinds of rows
    the tests store in [FakeSqlite.Rows]. *)
Inductive MockRows :=
| MockEmptyRows
| MockJournalSingleRow (RowNumber : Z).

Definition MockRows_Close (m : MockRows) : option string := None.

Definition MockRows_Columns (m : MockRows) : list string := [].

Definition MockRows_Next (m : MockRows) : MockRows * bool :=
  match m with
  | MockEmptyRows => (MockEmptyRows, false)
  | MockJournalSingleRow n =>
      let n := (n + 1)%Z in
      (MockJournalSingleRow n, if (n <? 2)%Z then true else false)
  end.

Definition MockRows_Scan (m : MockRows) (dest : Journal) : Journal :=
  match m with
  | MockEmptyRows => dest
  | MockJournalSingleRow n =>
      if (n =? 1)%Z then mkJournal 1 "slug" "Title" "2018-02-01" "Content"
      else dest
  end.

#[global] Instance MockRows_cursor : RowCursor MockRows := {
  Close := MockRows_Close;
  Columns := MockRows_Columns;
  Next := MockRows_Next;
  Scan := MockRows_Scan
}.

Record FakeSqlite := mkFakeSqlite {
  Closed : bool;
  Connected : bool;
  ErrorAtQuery : Z;
  ErrorMode : bool;
  ExpectedArgument : string;
  Queries : Z;
  Result : option (Z * Z);
  Rows : MockRows
}.

Definition FakeSqlite_Close (f : FakeSqlite) : FakeSqlite :=
  mkFakeSqlite true (Connected f) (ErrorAtQuery f) (ErrorMode f)
    (ExpectedArgument f) (Queries f) (Result f) (Rows f).

Definition FakeSqlite_Connect (f : FakeSqlite) : FakeSqlite * option string :=
  (mkFakeSqlite (Closed f) true (ErrorAtQuery f) (ErrorMode f)
     (ExpectedArgument f) (Queries f) (Result f) (Rows f), None).

Definition inArgs (f : FakeSqlite) (slice : list string) : bool :=
  existsb (fun v => String.eqb v (ExpectedArgument f)) slice.

(** [f.Queries++] *)
Definition countQuery (f : FakeSqlite) : FakeSqlite :=
  mkFakeSqlite (Closed f) (Connected f) (ErrorAtQuery f) (ErrorMode f)
    (ExpectedArgument f) (Queries f + 1)%Z (Result f) (Rows f).

(** The two tests [Exec] and [Query] make once the call is counted:
    whether an error is simulated, and whether the expected argument is
    missing. *)
Definition simulatedError (f : FakeSqlite) (args : list string) : bool :=
  (ErrorMode f || (ErrorAtQuery f =? Queries f)%Z)
  || (negb (String.eqb (ExpectedArgument f) "") && negb (inArgs f args)).

Definition FakeSqlite_Exec (f : FakeSqlite) (sql : string) (args : list string) :
    FakeSqlite * option (Z * Z) :=
  let f := countQuery f in
  if simulatedError f args then (f, None) else (f, Result f).

Definition FakeSqlite_Query (f : FakeSqlite) (sql : string) (args : list string) :
    FakeSqlite * option MockRows :=
  let f := countQuery f in
  if simulatedError f args then (f, None) else (f, Some (Rows f)).

#[global] Instance FakeSqlite_store : DataStore FakeSqlite := {
  Cursor := MockRows;
  query f st args := FakeSqlite_Query f (sqlText st) args;
  execute f st args := FakeSqlite_Exec f (sqlText st) args
}.

(** *** A store that keeps its rows *)

(** Modelled from the spec: the database is not among the sources; the
    persisted schema is one table of entries, kept here in memory
    together with the statements the store has been sent. *)
Record MemStore := mkMemStore {
  table : list Journal;
  statements : list (Statement * list string)
}.

(** A cursor over selected rows: the row it stands on, if any, and the
    rows still to come. *)
Record MemRows := mkMemRows {
  current : option Journal;
  pending : list Journal
}.

#[global] Instance MemRows_cursor : RowCursor MemRows := {
  Close m := None;
  Columns m := ["id"; "slug"; "title"; "date"; "content"];
  Next m :=
    match pending m with
    | [] => (mkMemRows None [], false)
    | j :: rest => (mkMemRows (Some j) rest, true)
    end;
  Scan m dest := default dest (current m)
}.

(** The row [j] after an update of its title, date and content. *)
Definition updated (t d c : string) (j : Journal) : Journal :=
  mkJournal (id j) (slug j) t d c.

Definition MemStore_Query (s : MemStore) (sql : Statement) (args : list string) :
    MemStore * option MemRows :=
  let s' := mkMemStore (table s) (statements s ++ [(sql, args)]) in
  match sql, args with
  | SelectBySlug, [sl] =>
      (s', Some (mkMemRows None (filter (fun j => slug j = sl) (table s))))
  | _, _ => (s', None)
  end.

Definition MemStore_Execute (s : MemStore) (sql : Statement) (args : list string) :
    MemStore * option (Z * Z) :=
  let log := statements s ++ [(sql, args)] in
  match sql, args with
  | UpdateBySlug, [t; d; c; sl] =>
      (mkMemStore
         ((fun j => if bool_decide (slug j = sl) then updated t d c j else j)
            <$> table s) log,
       Some (0%Z, Z.of_nat (length (filter (fun j => slug j = sl) (table s)))))
  | _, _ => (mkMemStore (table s) log, None)
  end.

#[global] Instance MemStore_store : DataStore MemStore := {
  Cursor := MemRows;
  query := MemStore_Query;
  execute := MemStore_Execute
}.

(** *** The Edit controller *)

(** The marker of the error banner in the rendered form. *)
Definition errorBanner : string :=
  "<div class=" +:+ http.quote +:+ "error" +:+ http.quote +:+ ">".

(** Modelled from the spec: the templates and the reading of the [error]
    query parameter are not among the sources. The edit flow takes from
    outside the core the reading of a query value as a flag, for which
    [1] is set, the edit form, which holds the error banner exactly when
    rendered with the flag set, and the not-found page, which holds the
    text [Page Not Found]. *)
Class EditViews := {
  truthy : string -> bool;
  renderEdit : Journal -> bool -> string;
  notFoundPage : string;
  truthy_one : truthy "1" = true;
  renderEdit_banner :
    forall j e, strings.Contains (renderEdit j e) errorBanner = e;
  notFoundPage_text : strings.Contains notFoundPage "Page Not Found" = true
}.

(** Modelled from the spec: the Edit controller is not among the
    sources; it holds the parameters of the route and the flag [Error],
    which the test reads and sets. *)
Record Edit := mkEdit {
  Params : list string;
  Error : bool
}.

(** Modelled from the spec: the states of the edit flow. *)
Inductive EditState :=
| NotFound
| DisplayForm (errorFlag : bool)
| ValidationFailed
| Saved.

Definition emptyJournal : Journal := mkJournal 0 "" "" "" "".

(** Modelled from the spec: the edit path of an entry, as the test
    requests it. *)
Definition editPath (j : Journal) : string := "/" +:+ slug j +:+ "/edit".

(** Modelled from the spec: a redirect is the status 302 with a
    [Location] header. *)
Definition redirect (w : FakeResponse) (url : string) : FakeResponse :=
  WriteHeader (SetHeader w "Location" url) StatusFound.

Section Edit.
Context {S : Type} `{DataStore S} `{EditViews}.

(** Modelled from the spec: the Edit controller is not among the
    sources; the spec's transition 1 is: load the entry by slug
    through [query]; a query that fails and a cursor without a row
    both come to no entry. The slug is the second parameter, as in
    the test's call of [Init]. *)
Definition load (c : Edit) (db : S) : S * option Journal :=
  let '(db, res) := query db SelectBySlug [default "" (Params c !! 1%nat)] in
  match res with
  | None => (db, None)
  | Some rows =>
      let '(rows, more) := Next rows in
      if more then (db, Some (Scan rows emptyJournal)) else (db, None)
  end.

(** Modelled from the spec: the Edit controller is not among the
    sources; the flag is set when the [error] query parameter is
    there with a truthy value. *)
Definition errorFlagOf (r : Request) : bool :=
  match first_value "error" (Query r) with
  | Some v => truthy v
  | None => false
  end.

(** Modelled from the spec: the Edit controller is not among the
    sources; a submission is invalid when the title, the date and
    the content are all empty. *)
Definition invalid (r : Request) : bool :=
  String.eqb (FormValue r "title") ""
  && String.eqb (FormValue r "date") ""
  && String.eqb (FormValue r "content") "".

(** Modelled from the spec: the Edit controller is not among the
    sources; the state a request leads to, given what [load] found.
    The spec has transitions for GET and POST alone: [None] is any
    other method on an entry that exists. *)
Definition transition (found : option Journal) (r : Request) : option EditState :=
  match found with
  | None => Some NotFound
  | Some _ =>
      if String.eqb (Method r) "GET" then Some (DisplayForm (errorFlagOf r))
      else if String.eqb (Method r) "POST" then
        Some (if invalid r then ValidationFailed else Saved)
      else None
  end.

(** Modelled from the spec: the Edit controller is not among the
    sources; [Run] loads the entry, takes the transition and
    answers: 404 and the not-found page; the form rendered from the
    entry and the flag; a redirect back to the entry's edit path
    with [error=1]; or the update followed by a redirect to the
    root with [saved=1], whatever the update returns (the spec
    reports a failed update as unhandled in the source). *)
Definition Edit_Run (c : Edit) (w : FakeResponse) (r : Request) (db : S) :
    option (Edit * FakeResponse * S) :=
  let '(db, found) := load c db in
  st ← transition found r;
  Some
    match st, found with
    | DisplayForm e, Some j =>
        (mkEdit (Params c) e, Write w (renderEdit j e), db)
    | ValidationFailed, Some j =>
        (c, redirect w (editPath j +:+ "?error=1"), db)
    | Saved, Some j =>
        let '(db, _) :=
          execute db UpdateBySlug
            [FormValue r "title"; FormValue r "date"; FormValue r "content";
             slug j] in
        (c, redirect w "/?saved=1", db)
    | _, _ =>
        (c, Write (WriteHeader w StatusNotFound) notFoundPage, db)
    end.
End Edit.

End web.

(** ** Stand-ins for the database and the templates

    Small implementations of the two interfaces, to run the handlers
    on. *)

(** A database that holds the journal table and can be told to fail. *)
Record TableDB := mkTableDB {
  journal : list Journal;
  prepareFails : bool;
  execFails : bool
}.

Definition TableDB_Exec (db : TableDB) (stmt : string) (args : list string) :
    TableDB * (option (Z * Z) * option string) :=
  if execFails db then (db, (None, Some "exec failed"))
  else
    match args with
    | [s; t; d; c] =>
        let n := (Z.of_nat (length (journal db)) + 1)%Z in
        (mkTableDB (journal db ++ [mkJournal n s t d c]) (prepareFails db) (execFails db),
         (Some (n, 1%Z), None))
    | _ => (db, (None, Some "wrong number of arguments"))
    end.

#[export] Instance TableDB_database : Database TableDB := {
  Stmt := string;
  Result := Z * Z;
  Prepare db sql := if prepareFails db then (db, inr "prepare failed") else (db, inl sql);
  Exec := TableDB_Exec;
  LastInsertId := fst
}.

(** Templates that print their name and the data they are given. *)
#[export] Instance textTemplates : Templates := {
  Template := list string;
  ParseFiles files := Some files;
  ExecuteTemplate t name data :=
    "{" +:+ name +:+ String.concat "," (default [] (Params <$> data)) +:+ "}";
  Execute t data := ""
}.

(** The controllers run, in call order. *)
Definition runsOf (cs : list Call) : list nat :=
  omap (fun c => match c with CallRun n => Some n | CallSetParams _ _ => None end) cs.

(** ** The router on the routes of [main] *)

Module Examples.

(** The application as [main] starts it: an empty table, an empty
    response, nothing logged. The Unicode path of [ToLower] is never
    taken by [slugify], so any function will do for it. *)
Definition app : ControllerInterface AppController TableDB :=
  AppController_interface (fun s => s).

Definition emptyResponse : FakeResponse := mkResponse "" ∅ 0.

Definition start : Server AppController TableDB :=
  mkServer main_heap emptyResponse (mkTableDB [] false false) [] [].

Definition get (path : string) : Request := mkRequest "GET" path [] [].

Definition viewRoute : route := mkRoute "GET" "\/([\w\-]+)" true 3.

(** The server after [GET /hello-world/x]. *)
Definition afterView : Server AppController TableDB :=
  match ServeHTTP (H := app) main_mux start (get "/hello-world/x") with
  | Done st => mkServer (heap st) emptyResponse (database st) (logged st) []
  | _ => start
  end.

End Examples.
Import Examples.

(** ** [slugify] on ASCII titles, byte by byte *)

(** The class of the pattern of [slugify]: the complement of the word
    characters, and the plus sign. *)
Definition slugClass : list (N * N) :=
  [(0, 47); (58, 64); (91, 94); (96, 96); (123, 1114111); (43, 43)].

(** The pattern of [slugify] compiled: one character of [slugClass]. *)
Definition nonWordOrPlus : regexp.Regexp := regexp.CharClass false slugClass.

(** What replacing every match of a one-character class by [repl] makes
    of one rune. *)
Definition replaced (neg : bool) (rs : list (N * N)) (repl : bytes) (c : utf8.rune) :
    bytes :=
  if regexp.in_class neg rs (utf8.code c) then repl else utf8.raw c.

Definition asciiBytes (l : bytes) : Prop := Forall (fun b => b < utf8.RuneSelf) l.

(** A word character of [\w], as a byte. *)
Definition isWord (b : N) : bool := regexp.in_ranges regexp.perl_w b.

(** What becomes of one byte of an ASCII title: a word character is
    lower-cased, any other byte gives a separator. *)
Definition slugByte (b : N) : N :=
  if isWord b then strings.lowerByte b else regexp.ch "-".

(** The statement the New controller prepares. *)
Definition insertStatement : string :=
  "INSERT INTO `journal`(`slug`, `title`, `date`, `content`) VALUES(?,?,?,?)".

(** *** Pages to run the edit flow on *)

(** The text [s] with every less-than sign written as an entity. *)
Fixpoint escapeLt (s : string) : string :=
  match s with
  | EmptyString => EmptyString
  | String c s' =>
      if Ascii.eqb c "<" then "&lt;" +:+ escapeLt s' else String c (escapeLt s')
  end.

(** A plain rendering of the form: the banner when the flag is set, then
    the fields of the entry. *)
Definition plainEdit (j : Journal) (e : bool) : string :=
  (if e then web.errorBanner else "")
  +:+ escapeLt (title j +:+ "|" +:+ date j +:+ "|" +:+ content j).

(** *** The scenarios of [TestEdit_Run] *)

Module TestEdit.
Import web.

(** [database := &FakeSqlite{}] with the rows of the scenario, and the
    controller after [Init(database, []string{"", "0"})]. *)
Definition database (rows : MockRows) : FakeSqlite :=
  mkFakeSqlite false false 0 false "" 0 None rows.

Definition controller : Edit := mkEdit [""; "0"] false.

Definition run `{EditViews} (rows : MockRows) (r : Request) :
    option (Edit * FakeResponse * FakeSqlite) :=
  Edit_Run controller emptyResponse r (database rows).

Definition statusOf (res : option (Edit * FakeResponse * FakeSqlite)) : Z :=
  match res with Some (_, w, _) => StatusCode w | None => (-1)%Z end.

Definition bodyOf (res : option (Edit * FakeResponse * FakeSqlite)) : string :=
  match res with Some (_, w, _) => Content w | None => "" end.

Definition locationOf (res : option (Edit * FakeResponse * FakeSqlite)) : string :=
  match res with Some (_, w, _) => Header_Get (Headers w) "Location" | None => "" end.

Definition errorOf (res : option (Edit * FakeResponse * FakeSqlite)) : bool :=
  match res with Some (c, _, _) => Error c | None => false end.

Definition queriesOf (res : option (Edit * FakeResponse * FakeSqlite)) : Z :=
  match res with Some (_, _, db) => Queries db | None => (-1)%Z end.

Definition emptyPost : Request :=
  mkRequest "POST" "/slug/edit" [] [("title", ""); ("date", ""); ("content", "")].

Definition fullPost : Request :=
  mkRequest "POST" "/slug/edit" []
    [("title", "Title"); ("date", "2018-02-01"); ("content", "Test again")].
End TestEdit.

(** *** The edit flow on a table of two entries *)

Module EditExamples.
Import web.

Definition store : MemStore :=
  mkMemStore
    [mkJournal 1 "slug" "Title" "2018-02-01" "Content";
     mkJournal 2 "other" "Other" "2018-03-01" "More"]
    [].

Definition queried (sl : string) : MemStore :=
  mkMemStore (table store) [(SelectBySlug, [sl])].

Definition entry : Journal := mkJournal 1 "slug" "Title" "2018-02-01" "Content".

Definition editing (sl : string) : Edit :=
  mkEdit ["/" +:+ sl +:+ "/edit"; sl] false.
End EditExamples.
Import EditExamples.

(** ** Definitions for the further properties *)

(** *** Slugs, rune by rune *)

(** What becomes of one rune of a title: a rune of the class of the
    pattern gives a separator, any other rune is lower-cased. *)
Definition slugRuneByte (r : utf8.rune) : N :=
  if regexp.in_class false slugClass (utf8.code r) then regexp.ch "-"
  else strings.lowerByte (utf8.code r).

(** The characters slugs are made of: digits, small letters, the
    underscore and the hyphen. *)
Definition slugChar (b : N) : bool :=
  ((regexp.ch "0" <=? b) && (b <=? regexp.ch "9"))
  || ((regexp.ch "a" <=? b) && (b <=? regexp.ch "z"))
  || (b =? regexp.ch "_") || (b =? regexp.ch "-").

(** A rune as [utf8.decode] yields it: an ASCII byte read as it stands,
    or a rune beyond ASCII and within the Unicode range. *)
Definition decoded (r : utf8.rune) : Prop :=
  (utf8.raw r = [utf8.code r] /\ utf8.code r < 128)
  \/ 128 <= utf8.code r <= regexp.MaxRune.

(** *** The view route *)

(** The class of the view pattern: word characters and the hyphen. *)
Definition viewClass : list (N * N) := regexp.perl_w ++ [(45, 45)].

(** The view pattern compiled. *)
Definition viewRe : regexp.Regexp :=
  regexp.Concat (regexp.literal 47)
    (regexp.Capture (regexp.Plus (regexp.CharClass false viewClass))).

Definition asRune (b : N) : utf8.rune := utf8.Rune b [b].

(** The name of an entry in a path: word characters and hyphens, at
    least one. *)
Definition nameBytes (w : bytes) : Prop :=
  w <> [] /\ Forall (fun b => regexp.in_ranges viewClass b = true) w.

Definition entryName (w : string) : Prop := nameBytes (bytes_of_string w).

(** *** Requests and controllers *)

(** The request [r] with another method. *)
Definition withMethod (meth : string) (r : Request) : Request :=
  mkRequest meth (Path r) (Query r) (PostForm r).

(** Whether [Run] on this controller and request takes a branch that
    renders a page. *)
Definition rendersOnly (a : AppController) (r : Request) : bool :=
  match a with
  | NewController _ => String.eqb (Method r) "GET"
  | _ => true
  end.

(** *** Runs of calls on the test doubles *)

(** A call on the database double. *)
Inductive DbCall :=
| DbExec (sql : string) (args : list string)
| DbQuery (sql : string) (args : list string).

(** The double after a run of calls, whatever they returned. *)
Definition afterCalls (f : web.FakeSqlite) (cs : list DbCall) : web.FakeSqlite :=
  fold_left
    (fun f c =>
       match c with
       | DbExec sql args => (web.FakeSqlite_Exec f sql args).1
       | DbQuery sql args => (web.FakeSqlite_Query f sql args).1
       end) cs f.

(** The cursor after [k] calls of [Next]. *)
Definition advance (k : nat) (m : web.MockRows) : web.MockRows :=
  Nat.iter k (fun m => (web.MockRows_Next m).1) m.

(** A bound within which a Go [int] counts without wrapping around on
    every platform. *)
Definition maxInt : Z := (2 ^ 31 - 1)%Z.

(** Controllers that cannot be run: [Run] panics whatever it is called
    on, so that a request served to the end has reached none of them. *)
Definition unrunnable : ControllerInterface unit unit := {|
  Run := fun _ _ _ _ => Panic "Run";
  SetParams := fun c _ => c
|}.

(** * Properties *)

(** ** The packages on the examples of their documentation *)

Example DecodeRune_two_bytes : utf8.DecodeRune [0xC3; 0xA9] = (0xE9, 2%nat).
Proof. reflexivity. Qed.

Example DecodeRune_three_bytes : utf8.DecodeRune [0xE4; 0xB8; 0x96] = (0x4E16, 3%nat).
Proof. reflexivity. Qed.

Example DecodeRune_overlong : utf8.DecodeRune [0xC0; 0x80] = (utf8.RuneError, 1%nat).
Proof. reflexivity. Qed.

Example DecodeRune_truncated : utf8.DecodeRune [0xE4; 0xB8] = (utf8.RuneError, 1%nat).
Proof. reflexivity. Qed.

Example MatchString_foo :
  MatchString "foo.*" "seafood" = (true, false)
  /\ MatchString "bar.*" "seafood" = (false, false)
  /\ MatchString "a(b" "seafood" = (false, true).
Proof. repeat split; reflexivity. Qed.

Example FindAllString_paranormal :
  (re ← Compile "a.";
   Some (FindAllString re "paranormal", FindAllString re "graal", FindAllString re "none"))
  = Some (["ar"; "an"; "al"], ["aa"], []).
Proof. reflexivity. Qed.

Example ReplaceAllString_axb :
  (re ← Compile "a(x*)b"; Some (ReplaceAllString re "-ab-axxb-" "T")) = Some "-T-T-".
Proof. reflexivity. Qed.

(** Empty matches: one before [b], none right after [aaa], one at the
    end. *)
Example FindAllString_empty_matches :
  (re ← Compile "a*"; Some (FindAllString re "baaab", ReplaceAllString re "baaab" "X"))
  = Some ([""; "aaa"; ""], "XbXbX").
Proof. reflexivity. Qed.

Example Compile_errors :
  Compile "a**" = None /\ Compile "(a" = None /\ Compile "a)" = None
  /\ Compile "[a" = None /\ Compile "[z-a]" = None /\ Compile "+a" = None.
Proof. repeat split; reflexivity. Qed.

(** The pattern of the view route: a slash, then a group of word
    characters and hyphens. *)
Example Compile_view_pattern :
  Compile "\/([\w\-]+)"
  = Some (regexp.Concat (regexp.literal 47)
            (regexp.Capture
               (regexp.Plus
                  (regexp.CharClass false (regexp.perl_w ++ [(45, 45)]))))).
Proof. reflexivity. Qed.

(** ** The router *)

Section RouterProperties.
Context {C DB : Type} `{ControllerInterface C DB} `{RegexpPackage}.
Implicit Types (st : Server C DB) (r : Request) (rt : route) (m : mux).

Lemma methodMatches_spec r rt :
  methodMatches r rt = true <->
  Method r = method rt \/ (Method r = "" /\ method rt = "GET").
Proof.
  unfold methodMatches.
  rewrite orb_true_iff, andb_true_iff, !String.eqb_eq. reflexivity.
Qed.

(** A pattern that matched has compiled. *)
Lemma matched_compiles pattern s :
  fst (MatchString pattern s) = true ->
  exists re, Compile pattern = Some re /\ MatchRegexp re s = true.
Proof.
  unfold MatchString. destruct (Compile pattern) as [re|]; simpl.
  - intros Hm. exists re. split; [reflexivity | exact Hm].
  - discriminate.
Qed.

Lemma serveRoutes_find rs st r :
  serveRoutes rs st r =
  match find (routeMatches r) rs with
  | Some rt => dispatch rt st r
  | None => Done (notFoundReply st r)
  end.
Proof.
  induction rs as [|rt rs IH]; [reflexivity|].
  cbn [serveRoutes find]. rewrite IH. clear IH.
  change (String.eqb (Path r) (uri rt) && methodMatches r rt)
    with (literalMatch r rt).
  unfold routeMatches, patternMatch.
  destruct (literalMatch r rt) eqn:Hlit; cbn [orb].
  { unfold dispatch. rewrite Hlit. reflexivity. }
  destruct (matchable rt); [|reflexivity].
  destruct (MatchString (uri rt) (Path r)) as [matched failed].
  cbn [fst andb].
  destruct (matched && methodMatches r rt); [|reflexivity].
  unfold dispatch. rewrite Hlit. reflexivity.
Qed.

Lemma ServeHTTP_firstMatch m st r :
  ServeHTTP m st r =
  match firstMatch m r with
  | Some rt => dispatch rt (Printf (Method r +:+ ": " +:+ Path r) st) r
  | None => Done (notFoundReply (Printf (Method r +:+ ": " +:+ Path r) st) r)
  end.
Proof. apply serveRoutes_find. Qed.

Lemma callRun_calls c st r st' :
  callRun c st r = Done st' -> calls st' = calls st ++ [CallRun c].
Proof.
  unfold callRun. destruct (heap st !! c) as [ctl|]; [|discriminate].
  destruct (Run ctl (response st) r (database st)) as [[[ctl' w] db]| |];
    simpl; [|discriminate..].
  intros [= <-]. reflexivity.
Qed.

Lemma callSetParams_calls c p st st' :
  callSetParams c p st = Done st' -> calls st' = calls st ++ [CallSetParams c p].
Proof.
  unfold callSetParams. destruct (heap st !! c) as [ctl|]; [|discriminate].
  intros [= <-]. reflexivity.
Qed.
End RouterProperties.

Section RouterClaims.
Context {C DB : Type} `{ControllerInterface C DB} `{RegexpPackage}.
Implicit Types (st : Server C DB) (r : Request) (rt : route) (m : mux).

Local Abbreviation entry r st := (Printf (Method r +:+ ": " +:+ Path r) st).

(** The route [find] picks is the first one that passes the test. *)
Lemma find_first {A : Type} (f : A -> bool) (l : list A) (x : A) :
  find f l = Some x ->
  exists pre post,
    l = pre ++ x :: post /\ f x = true /\ Forall (fun y => f y = false) pre.
Proof.
  induction l as [|a l IH]; simpl; [discriminate|].
  destruct (f a) eqn:Hfa.
  - intros [= ->]. exists [], l. repeat split; [assumption | constructor].
  - intros Hx. destruct (IH Hx) as (pre & post & -> & Hfx & Hpre).
    exists (a :: pre), post. repeat split; [assumption|].
    constructor; assumption.
Qed.

Lemma routeMatches_method r rt :
  routeMatches r rt = true -> methodMatches r rt = true.
Proof.
  unfold routeMatches, literalMatch, patternMatch.
  destruct (methodMatches r rt); [reflexivity|].
  rewrite !andb_false_r. discriminate.
Qed.

(** A route that matched otherwise than by its string is a pattern
    that compiles. *)
Lemma routeMatches_pattern r rt :
  routeMatches r rt = true -> literalMatch r rt = false ->
  exists re, Compile (uri rt) = Some re.
Proof.
  intros Hrt Hlit. unfold routeMatches in Hrt. rewrite Hlit in Hrt.
  cbn [orb] in Hrt. unfold patternMatch in Hrt.
  apply andb_true_iff in Hrt as [Hrt _].
  apply andb_true_iff in Hrt as [_ Hmatched].
  destruct (matched_compiles _ _ Hmatched) as (re & Hre & _).
  exists re. exact Hre.
Qed.

Lemma literalMatch_path r rt :
  methodMatches r rt = true ->
  (literalMatch r rt = true <-> Path r = uri rt).
Proof.
  intros Hm. unfold literalMatch. rewrite Hm, andb_true_r. apply String.eqb_eq.
Qed.

Lemma find_nowhere {A : Type} (f : A -> bool) (l : list A) :
  find f l = None -> Forall (fun y => f y = false) l.
Proof.
  induction l as [|a l IH]; simpl; [constructor|].
  destruct (f a) eqn:Hfa; [discriminate|].
  intros Hnone. constructor; [exact Hfa | exact (IH Hnone)].
Qed.

(** C5, as the code has it: the router goes through the routes in
    registration order. A request that some route matches is handed to
    the controller of the first route whose path test and method test
    both pass, and to no other: [Run] is called once, on that
    controller as the heap holds it when the path is the route's string
    and after [SetParams] when the route matched as a pattern, and what
    [Run] returns becomes the response, the database and the state of
    that controller, every other controller staying as it was. A
    request that no route matches is handed to no controller and gets
    the not-found reply. The method test is equality of the two
    methods, or an empty request method on a GET route; on a route that
    is not a pattern the path test is equality of the request path and
    the route's string. *)
Theorem ServeHTTP_dispatches_first_match m st r :
  match firstMatch m r with
  | Some rt =>
      (exists pre post,
          routes m = pre ++ rt :: post
          /\ Forall (fun rt' => routeMatches r rt' = false) pre)
      /\ routeMatches r rt = true
      /\ (Method r = method rt \/ (Method r = "" /\ method rt = "GET"))
      /\ (heap st !! controller rt = None -> ServeHTTP m st r = Panic nilDereference)
      /\ (forall ctl, heap st !! controller rt = Some ctl ->
            exists ctl0 cs,
              ((Path r = uri rt /\ ctl0 = ctl /\ cs = [CallRun (controller rt)])
               \/ (Path r <> uri rt /\ matchable rt = true
                   /\ exists re,
                        Compile (uri rt) = Some re
                        /\ ctl0 = SetParams ctl (FindAllString re (Path r))
                        /\ cs = [CallSetParams (controller rt) (FindAllString re (Path r));
                                 CallRun (controller rt)]))
              /\ ServeHTTP m st r =
                 (let* (ctl', w, db) := Run ctl0 (response st) r (database st) in
                  Done (mkServer (<[controller rt := ctl']> (heap st)) w db
                          (logged st ++ [Method r +:+ ": " +:+ Path r])
                          (calls st ++ cs))))
  | None =>
      Forall (fun rt => routeMatches r rt = false) (routes m)
      /\ ServeHTTP m st r =
         Done (mkServer (heap st) (NotFound (response st) r) (database st)
                 (logged st ++ [Method r +:+ ": " +:+ Path r;
                                Method r +:+ ": " +:+ Path r +:+ " 404 Not Found"])
                 (calls st))
  end
  /\ (forall rt', matchable rt' = false ->
        (routeMatches r rt' = true <->
         Path r = uri rt'
         /\ (Method r = method rt' \/ (Method r = "" /\ method rt' = "GET")))).
Proof.
  split.
  2:{ intros rt' Hlit.
      unfold routeMatches, patternMatch, literalMatch. rewrite Hlit.
      cbn [andb]. rewrite orb_false_r, andb_true_iff, String.eqb_eq.
      rewrite methodMatches_spec. reflexivity. }
  pose proof (ServeHTTP_firstMatch m st r) as Hserve.
  destruct (firstMatch m r) as [rt|] eqn:Hfirst.
  - destruct (find_first _ _ _ Hfirst) as (pre & post & Hsplit & Hrt & Hpre).
    pose proof (routeMatches_method _ _ Hrt) as Hmethod.
    split; [exists pre, post; auto|].
    split; [exact Hrt|].
    split; [apply methodMatches_spec, Hmethod|].
    unfold dispatch in Hserve.
    destruct (literalMatch r rt) eqn:Hlit.
    + assert (Hpath : Path r = uri rt) by (apply (literalMatch_path r rt Hmethod), Hlit).
      split.
      * intros Hnil. rewrite Hserve. unfold callRun. cbn [heap Printf].
        rewrite Hnil. reflexivity.
      * intros ctl Hctl. exists ctl, [CallRun (controller rt)].
        split; [left; auto|].
        rewrite Hserve. unfold callRun.
        cbn [heap Printf response database logged calls]. rewrite Hctl. reflexivity.
    + assert (Hpath : Path r <> uri rt).
      { intros Heq. apply (literalMatch_path r rt Hmethod) in Heq. congruence. }
      destruct (routeMatches_pattern r rt Hrt Hlit) as (re & Hre).
      assert (Hpat : matchable rt = true).
      { unfold routeMatches, patternMatch in Hrt. rewrite Hlit in Hrt.
        destruct (matchable rt); [reflexivity | discriminate Hrt]. }
      unfold MustCompile in Hserve. rewrite Hre in Hserve. cbn [bind] in Hserve.
      unfold callSetParams in Hserve. cbn [heap Printf] in Hserve.
      split.
      * intros Hnil. rewrite Hserve, Hnil. reflexivity.
      * intros ctl Hctl.
        exists (SetParams ctl (FindAllString re (Path r))),
          [CallSetParams (controller rt) (FindAllString re (Path r));
           CallRun (controller rt)].
        split.
        { right. split; [exact Hpath|]. split; [exact Hpat|].
          exists re. auto. }
        rewrite Hserve, Hctl. cbn [bind]. unfold callRun.
        cbn [heap response database logged calls].
        assert (Hlt : (controller rt < length (heap st))%nat)
          by (eapply lookup_lt_Some; exact Hctl).
        rewrite list_lookup_insert_eq by exact Hlt.
        destruct (Run _ _ _ _) as [[[ctl' w] db]| |]; cbn [bind]; [|reflexivity..].
        rewrite list_insert_insert_eq, <- app_assoc. reflexivity.
  - split; [apply find_nowhere, Hfirst|].
    rewrite Hserve. unfold notFoundReply. cbn [heap Printf response database logged calls].
    rewrite <- app_assoc. reflexivity.
Qed.

(** C4: when the request goes to a pattern route through the regex
    branch, the pattern has compiled, [SetParams] receives what
    [FindAllString] returns for the compiled pattern on the request
    path (the matches of the whole pattern, in order), and [Run] is
    called after it, on the controller that holds these parameters. *)
Theorem ServeHTTP_pattern_sets_params m st r rt :
  firstMatch m r = Some rt ->
  literalMatch r rt = false ->
  exists re,
    matchable rt = true
    /\ Compile (uri rt) = Some re
    /\ MatchRegexp re (Path r) = true
    /\ ServeHTTP m st r =
       (let* st1 := callSetParams (controller rt) (FindAllString re (Path r)) (entry r st) in
        callRun (controller rt) st1 r)
    /\ (forall st', ServeHTTP m st r = Done st' ->
          calls st' =
          calls st ++ [CallSetParams (controller rt) (FindAllString re (Path r));
                       CallRun (controller rt)])
    /\ (forall ctl, heap st !! controller rt = Some ctl ->
          ServeHTTP m st r =
          (let* (ctl', w, db) :=
             Run (SetParams ctl (FindAllString re (Path r))) (response st) r (database st) in
           Done (mkServer (<[controller rt := ctl']> (heap st)) w db
                   (logged (entry r st))
                   (calls st ++ [CallSetParams (controller rt) (FindAllString re (Path r));
                                 CallRun (controller rt)])))).
Proof.
  intros Hfirst Hlit.
  destruct (find_first _ _ _ Hfirst) as (pre & post & _ & Hrt & _).
  unfold routeMatches in Hrt. rewrite Hlit in Hrt. cbn [orb] in Hrt.
  unfold patternMatch in Hrt.
  apply andb_true_iff in Hrt as [Hrt _].
  apply andb_true_iff in Hrt as [Hpat Hmatched].
  destruct (matched_compiles _ _ Hmatched) as (re & Hre & Hm).
  exists re.
  assert (Hserve : ServeHTTP m st r =
    (let* st1 := callSetParams (controller rt) (FindAllString re (Path r)) (entry r st) in
     callRun (controller rt) st1 r)).
  { rewrite ServeHTTP_firstMatch, Hfirst. unfold dispatch. rewrite Hlit.
    unfold MustCompile. rewrite Hre. reflexivity. }
  repeat split; try assumption.
  - intros st' Hdone. rewrite Hserve in Hdone.
    destruct (callSetParams _ _ (entry r st)) as [st1| |] eqn:Hset;
      simpl in Hdone; [|discriminate..].
    rewrite (callRun_calls _ _ _ _ Hdone), (callSetParams_calls _ _ _ _ Hset).
    simpl. rewrite <- app_assoc. reflexivity.
  - intros ctl Hctl. rewrite Hserve.
    unfold callSetParams. cbn [heap Printf]. rewrite Hctl. cbn [bind].
    unfold callRun. cbn [heap response database logged calls].
    assert (Hlt : (controller rt < length (heap st))%nat)
      by (eapply lookup_lt_Some; exact Hctl).
    rewrite list_lookup_insert_eq by exact Hlt.
    destruct (Run _ _ _ _) as [[[ctl' w] db]| |]; cbn [bind]; [|reflexivity..].
    rewrite list_insert_insert_eq, <- app_assoc. reflexivity.
Qed.

(** C9: when the request path is the very string of the first matching
    route and the method test passes, the router takes the first branch
    whatever the route's [matchable] flag: it calls [Run] and never
    [SetParams], so the controller runs with the fields an earlier
    request left in it. *)
Theorem ServeHTTP_literal_keeps_params m st r rt :
  firstMatch m r = Some rt ->
  literalMatch r rt = true ->
  ServeHTTP m st r = callRun (controller rt) (entry r st) r
  /\ (forall st', ServeHTTP m st r = Done st' ->
        calls st' = calls st ++ [CallRun (controller rt)])
  /\ (forall ctl, heap st !! controller rt = Some ctl ->
        ServeHTTP m st r =
        (let* (ctl', w, db) := Run ctl (response st) r (database st) in
         Done (mkServer (<[controller rt := ctl']> (heap st)) w db
                 (logged (entry r st)) (calls st ++ [CallRun (controller rt)])))).
Proof.
  intros Hfirst Hlit.
  assert (Hserve : ServeHTTP m st r = callRun (controller rt) (entry r st) r).
  { rewrite ServeHTTP_firstMatch, Hfirst. unfold dispatch. rewrite Hlit. reflexivity. }
  split; [exact Hserve|]. split.
  - intros st' Hdone. rewrite Hserve in Hdone.
    apply callRun_calls in Hdone. exact Hdone.
  - intros ctl Hctl. rewrite Hserve. unfold callRun.
    cbn [heap Printf response database calls]. rewrite Hctl. reflexivity.
Qed.

(** C6, as the code has it: when no route matches, no controller is
    called, the miss is logged, and the router answers through
    [http.NotFound]: status 404 and the line [404 page not found]
    added to the body. *)
Theorem ServeHTTP_not_found m st r :
  firstMatch m r = None ->
  exists st',
    ServeHTTP m st r = Done st'
    /\ StatusCode (response st') = 404%Z
    /\ Content (response st') =
       Content (response st) +:+ "404 page not found" +:+ http.newline
    /\ calls st' = calls st
    /\ heap st' = heap st
    /\ logged st' =
       logged st ++ [Method r +:+ ": " +:+ Path r;
                     Method r +:+ ": " +:+ Path r +:+ " 404 Not Found"].
Proof.
  intros Hnone. eexists. split.
  { rewrite ServeHTTP_firstMatch, Hnone. reflexivity. }
  cbn. rewrite <- app_assoc. repeat split; reflexivity.
Qed.
End RouterClaims.

(** ** The router on the routes of [main] *)

Lemma ServeHTTP_dispatches_first_match_witness :
  firstMatch main_mux (get "/new") = Some (mkRoute "GET" "/new" false 1)
  /\ ServeHTTP (H := app) main_mux start (get "/new") =
     (let* (ctl', w, db) :=
        Run (ControllerInterface := app) (NewController (mkController []))
          emptyResponse (get "/new") (mkTableDB [] false false) in
      Done (mkServer (<[1%nat := ctl']> main_heap) w db ["GET: /new"] [CallRun 1]))
  /\ exists st',
       ServeHTTP (H := app) main_mux start (get "/new") = Done st'
       /\ Content (response st') = "{header}{content}{footer}"
       /\ heap st' = main_heap.
Proof.
  assert (Hfirst : firstMatch main_mux (get "/new") = Some (mkRoute "GET" "/new" false 1))
    by reflexivity.
  split; [exact Hfirst|].
  pose proof (ServeHTTP_dispatches_first_match (H := app) main_mux start (get "/new"))
    as [Hmatch _].
  rewrite Hfirst in Hmatch.
  destruct Hmatch as (_ & _ & _ & _ & Hrun).
  destruct (Hrun (NewController (mkController [])) eq_refl)
    as (ctl0 & cs & Hcase & Hserve).
  destruct Hcase as [(_ & Hctl & Hcs)|(Hpath & _)];
    [|exfalso; apply Hpath; reflexivity].
  rewrite Hctl, Hcs in Hserve.
  split; [exact Hserve|].
  rewrite Hserve. eexists. split; [reflexivity|]. split; reflexivity.
Defined.

(** C5 as it is stated fails: on [DELETE /] no route of [main] passes
    its tests and the request is handed to no controller. It is served
    to the end even with controllers that cannot be run, the controllers
    and the database are as they were, and the answer is the not-found
    reply. *)
Lemma ServeHTTP_dispatches_first_match_counterexample :
  Forall (fun rt => routeMatches (mkRequest "DELETE" "/" [] []) rt = false)
    (routes main_mux)
  /\ (exists st',
        ServeHTTP (H := app) main_mux start (mkRequest "DELETE" "/" [] []) = Done st'
        /\ runsOf (calls st') = []
        /\ heap st' = heap start
        /\ database st' = database start
        /\ StatusCode (response st') = 404%Z)
  /\ (exists st',
        ServeHTTP (H := unrunnable) main_mux (mkServer [tt; tt; tt; tt] emptyResponse tt [] [])
          (mkRequest "DELETE" "/" [] []) = Done st'
        /\ calls st' = []).
Proof.
  split.
  { repeat (constructor; [reflexivity|]). constructor. }
  split.
  - eexists. split; [reflexivity|]. repeat split; reflexivity.
  - eexists. split; reflexivity.
Qed.

Lemma ServeHTTP_pattern_sets_params_witness :
  firstMatch main_mux (get "/hello-world/x") = Some viewRoute
  /\ literalMatch (get "/hello-world/x") viewRoute = false
  /\ exists st',
       ServeHTTP (H := app) main_mux start (get "/hello-world/x") = Done st'
       /\ calls st' = [CallSetParams 3 ["/hello-world"; "/x"]; CallRun 3]
       /\ heap st' !! 3%nat = Some (ViewController (mkController ["/hello-world"; "/x"])).
Proof.
  assert (Hfirst : firstMatch main_mux (get "/hello-world/x") = Some viewRoute)
    by reflexivity.
  assert (Hlit : literalMatch (get "/hello-world/x") viewRoute = false)
    by reflexivity.
  split; [exact Hfirst|]. split; [exact Hlit|].
  destruct (ServeHTTP_pattern_sets_params (H := app) main_mux start _ _ Hfirst Hlit)
    as (re & _ & Hre & _ & Hserve & Hcalls & _).
  assert (Hcompiled : Compile (uri viewRoute) = Some re) by exact Hre.
  vm_compute in Hcompiled. injection Hcompiled as <-.
  destruct (ServeHTTP (H := app) main_mux start (get "/hello-world/x")) as [st'| |] eqn:Hdone;
    [|discriminate Hserve..].
  exists st'. split; [reflexivity|]. split.
  - exact (Hcalls st' eq_refl).
  - vm_compute in Hdone. injection Hdone as <-. reflexivity.
Defined.

Lemma ServeHTTP_literal_keeps_params_witness :
  firstMatch main_mux (get "\/([\w\-]+)") = Some viewRoute
  /\ literalMatch (get "\/([\w\-]+)") viewRoute = true
  /\ heap afterView !! 3%nat = Some (ViewController (mkController ["/hello-world"; "/x"]))
  /\ exists st',
       ServeHTTP (H := app) main_mux afterView (get "\/([\w\-]+)") = Done st'
       /\ calls st' = [CallRun 3]
       /\ Content (response st') = "{header}{content/hello-world,/x}{footer}".
Proof.
  assert (Hfirst : firstMatch main_mux (get "\/([\w\-]+)") = Some viewRoute)
    by reflexivity.
  assert (Hlit : literalMatch (get "\/([\w\-]+)") viewRoute = true)
    by reflexivity.
  split; [exact Hfirst|]. split; [exact Hlit|]. split; [reflexivity|].
  destruct (ServeHTTP_literal_keeps_params (H := app) main_mux afterView _ _ Hfirst Hlit)
    as (Hserve & Hcalls & _).
  destruct (ServeHTTP (H := app) main_mux afterView (get "\/([\w\-]+)"))
    as [st'| |] eqn:Hdone; [|discriminate Hserve..].
  exists st'. split; [reflexivity|]. split.
  - exact (Hcalls st' eq_refl).
  - vm_compute in Hdone. injection Hdone as <-. reflexivity.
Defined.

Lemma ServeHTTP_not_found_witness :
  firstMatch main_mux (mkRequest "DELETE" "/" [] []) = None
  /\ exists st',
       ServeHTTP (H := app) main_mux start (mkRequest "DELETE" "/" [] []) = Done st'
       /\ StatusCode (response st') = 404%Z
       /\ Content (response st') = "404 page not found" +:+ http.newline.
Proof.
  assert (Hnone : firstMatch main_mux (mkRequest "DELETE" "/" [] []) = None)
    by reflexivity.
  split; [exact Hnone|].
  destruct (ServeHTTP_not_found (H := app) main_mux start _ Hnone)
    as (st' & Hserve & Hstatus & Hbody & _).
  exists st'. split; [exact Hserve|]. split; [exact Hstatus|]. exact Hbody.
Defined.

(** C6 as it is stated fails: on [DELETE /] no route of [main] matches,
    the status is 404, and the body does not hold the text
    [Page Not Found]. *)
Lemma ServeHTTP_not_found_body_counterexample :
  firstMatch main_mux (mkRequest "DELETE" "/" [] []) = None
  /\ exists st',
       ServeHTTP (H := app) main_mux start (mkRequest "DELETE" "/" [] []) = Done st'
       /\ StatusCode (response st') = 404%Z
       /\ strings.Contains (Content (response st')) "Page Not Found" = false.
Proof.
  split; [reflexivity|]. eexists. split; [reflexivity|].
  split; reflexivity.
Qed.

(** ** [slugify] *)

Lemma Compile_slug_pattern : regexp.Compile "[\W+]" = Some nonWordOrPlus.
Proof. reflexivity. Qed.

(** [slugify] never panics. *)
Lemma slugify_returns lower s :
  slugify lower s =
  Done (strings.ToLower lower (regexp.ReplaceAllString nonWordOrPlus s "-")).
Proof. reflexivity. Qed.

Section class_replace.
Import regexp utf8.
Variables (neg : bool) (rs : list (N * N)) (repl : bytes).

Local Abbreviation hit c := (in_class neg rs (code c)).

Lemma match_here_class (s : list rune) :
  match_here (CharClass neg rs) s =
  match s with
  | c :: _ => if hit c then Some 1%nat else None
  | [] => None
  end.
Proof.
  destruct s as [|c s]; [reflexivity|].
  unfold match_here. cbn [exec]. destruct (hit c); [|reflexivity].
  f_equal. cbn [length]. lia.
Qed.

(** A search that fails has met no character of the class. *)
Lemma search_class_none (s : list rune) (pos : nat) :
  search (CharClass neg rs) s pos = None -> Forall (fun c => hit c = false) s.
Proof.
  revert pos. induction s as [|c s IH]; intros pos; [constructor|].
  cbn [search]. rewrite match_here_class.
  destruct (hit c) eqn:Hc; [discriminate|].
  intros Hs. constructor; [exact Hc | exact (IH _ Hs)].
Qed.

(** A search that succeeds stops on the first character of the class. *)
Lemma search_class_some (s : list rune) (pos a0 a1 : nat) :
  search (CharClass neg rs) s pos = Some (a0, a1) ->
  exists pre c post,
    s = pre ++ c :: post /\ Forall (fun c => hit c = false) pre /\ hit c = true
    /\ a0 = (pos + length pre)%nat /\ a1 = S a0.
Proof.
  revert pos. induction s as [|c s IH]; intros pos.
  - cbn [search]. rewrite match_here_class. discriminate.
  - cbn [search]. rewrite match_here_class.
    destruct (hit c) eqn:Hc.
    + intros [= <- <-]. exists [], c, s. cbn [length app].
      repeat split; [constructor | exact Hc | lia | lia].
    + intros Hs. destruct (IH _ Hs) as (pre & c' & post & -> & Hpre & Hc' & -> & ->).
      exists (c :: pre), c', post. cbn [length app].
      repeat split; [constructor; assumption | exact Hc' | lia].
Qed.

Lemma encode_misses (l : list rune) :
  Forall (fun c => hit c = false) l -> encode l = concat (replaced neg rs repl <$> l).
Proof.
  unfold encode. induction 1 as [|c l Hc _ IH]; [reflexivity|].
  cbn [fmap list_fmap concat]. unfold replaced at 1. rewrite Hc, IH. reflexivity.
Qed.

(** With enough fuel, [replaceAll] for a one-character class rewrites
    the input rune by rune. *)
Lemma replaceAll_class (inp : list rune) (n pos : nat) :
  (pos <= length inp)%nat ->
  (length inp - pos < n)%nat ->
  replaceAll n (CharClass neg rs) inp repl pos pos
  = concat (replaced neg rs repl <$> drop pos inp).
Proof.
  revert pos. induction n as [|n IH]; intros pos Hpos Hn; [lia|].
  cbn [replaceAll].
  replace (length inp <? pos)%nat with false by (symmetry; apply Nat.ltb_ge; lia).
  unfold doExecute.
  destruct (search (CharClass neg rs) (drop pos inp) pos) as [[a0 a1]|] eqn:Hs.
  - destruct (search_class_some _ _ _ _ Hs)
      as (pre & c & post & Hsplit & Hpre & Hc & -> & ->).
    assert (Hlen : length (drop pos inp) = (length pre + S (length post))%nat).
    { rewrite Hsplit, length_app. reflexivity. }
    rewrite length_drop in Hlen.
    assert (Hslice : slice inp pos (pos + length pre) = pre).
    { unfold slice. rewrite Hsplit.
      replace (pos + length pre - pos)%nat with (length pre) by lia.
      apply take_app_length. }
    assert (Hdrop : drop (S (pos + length pre)) inp = post).
    { replace (S (pos + length pre)) with (pos + S (length pre))%nat by lia.
      rewrite <- drop_drop, Hsplit.
      replace (S (length pre)) with (length (pre ++ [c]))
        by (rewrite length_app; simpl; lia).
      rewrite (cons_middle c pre post), app_assoc. apply drop_app_length. }
    rewrite Hslice.
    replace ((pos <? S (pos + length pre))%nat) with true
      by (symmetry; apply Nat.ltb_lt; lia).
    cbn [orb].
    replace ((S (pos + length pre) <? S pos)%nat) with false
      by (symmetry; apply Nat.ltb_ge; lia).
    rewrite IH by lia. rewrite Hdrop, Hsplit.
    rewrite fmap_app, concat_app. cbn [fmap list_fmap concat].
    assert (Hrepl : replaced neg rs repl c = repl)
      by (unfold replaced; rewrite Hc; reflexivity).
    rewrite (encode_misses _ Hpre), Hrepl. reflexivity.
  - apply search_class_none in Hs. apply encode_misses. exact Hs.
Qed.
End class_replace.

Lemma ReplaceAllString_class neg rs s repl :
  regexp.ReplaceAllString (regexp.CharClass neg rs) s repl =
  string_of_bytes
    (concat (replaced neg rs (bytes_of_string repl)
               <$> utf8.decode (bytes_of_string s))).
Proof.
  unfold regexp.ReplaceAllString. f_equal.
  rewrite replaceAll_class by lia. rewrite drop_0. reflexivity.
Qed.

Lemma isASCII_spec s : strings.isASCII s = true <-> asciiBytes (bytes_of_string s).
Proof.
  unfold strings.isASCII, asciiBytes. rewrite forallb_forall, Forall_forall.
  split; intros Hall b Hb; specialize (Hall b).
  - apply N.ltb_lt, Hall, list_elem_of_In, Hb.
  - apply N.ltb_lt, Hall, list_elem_of_In, Hb.
Qed.

Lemma decode_fuel_ascii (l : bytes) (n : nat) :
  asciiBytes l -> (length l <= n)%nat ->
  utf8.decode_fuel n l = (fun b => utf8.Rune b [b]) <$> l.
Proof.
  intros Hl. revert n. induction Hl as [|b l Hb _ IH]; intros n Hn.
  - destruct n; reflexivity.
  - destruct n as [|n]; [cbn [length] in Hn; lia|].
    cbn [utf8.decode_fuel utf8.DecodeRune]. unfold utf8.first.
    replace (b <? 128) with true by (symmetry; apply N.ltb_lt; exact Hb).
    cbn [take drop fmap list_fmap]. f_equal. apply IH. cbn [length] in Hn. lia.
Qed.

(** An ASCII string decodes to one rune per byte. *)
Lemma decode_ascii (l : bytes) :
  asciiBytes l -> utf8.decode l = (fun b => utf8.Rune b [b]) <$> l.
Proof. intros Hl. apply decode_fuel_ascii; [exact Hl | lia]. Qed.

Lemma bytes_of_string_of_bytes (l : bytes) :
  Forall (fun b => b < 256) l -> bytes_of_string (string_of_bytes l) = l.
Proof.
  intros Hl. unfold bytes_of_string, string_of_bytes.
  rewrite list_ascii_of_string_of_list_ascii.
  induction Hl as [|b l Hb _ IH]; [reflexivity|].
  cbn [fmap list_fmap]. rewrite N_ascii_embedding by exact Hb.
  f_equal. exact IH.
Qed.

(** On ASCII the class of the pattern is the complement of [\w]: the
    plus sign adds nothing to it. *)
Lemma slugClass_ascii (b : N) :
  b < utf8.RuneSelf -> regexp.in_class false slugClass b = negb (isWord b).
Proof.
  intros Hb.
  assert (Hall : forallb (fun n => Bool.eqb (regexp.in_class false slugClass (N.of_nat n))
                                    (negb (isWord (N.of_nat n)))) (seq 0 128) = true)
    by (vm_compute; reflexivity).
  rewrite forallb_forall in Hall.
  specialize (Hall (N.to_nat b)). rewrite N2Nat.id in Hall.
  apply Bool.eqb_prop, Hall, in_seq. change (b < 128) in Hb. lia.
Qed.

Lemma replaced_ascii (l : bytes) :
  asciiBytes l ->
  concat (replaced false slugClass [regexp.ch "-"] <$> ((fun b => utf8.Rune b [b]) <$> l))
  = (fun b => if isWord b then b else regexp.ch "-") <$> l.
Proof.
  induction 1 as [|b l Hb _ IH]; [reflexivity|].
  cbn [fmap list_fmap concat]. rewrite IH.
  unfold replaced. cbn [utf8.code utf8.raw]. rewrite (slugClass_ascii b Hb).
  destruct (isWord b); reflexivity.
Qed.

(** The slug of an ASCII title, byte by byte: every byte outside the word
    class gives a separator of its own, and nothing is collapsed. *)
Theorem slugify_ascii lower s :
  strings.isASCII s = true ->
  slugify lower s = Done (string_of_bytes (slugByte <$> bytes_of_string s)).
Proof.
  intros Hs. apply isASCII_spec in Hs.
  rewrite slugify_returns. f_equal.
  unfold nonWordOrPlus. rewrite ReplaceAllString_class.
  rewrite (decode_ascii _ Hs).
  change (bytes_of_string "-") with [regexp.ch "-"].
  rewrite (replaced_ascii _ Hs).
  set (l := (fun b => if isWord b then b else regexp.ch "-") <$> bytes_of_string s).
  assert (Hl : asciiBytes l).
  { unfold l, asciiBytes. apply Forall_fmap. unfold asciiBytes in Hs.
    eapply Forall_impl; [exact Hs|]. intros b Hb.
    change ((if isWord b then b else regexp.ch "-") < utf8.RuneSelf).
    destruct (isWord b); [exact Hb | reflexivity]. }
  assert (Hround : bytes_of_string (string_of_bytes l) = l).
  { apply bytes_of_string_of_bytes. eapply Forall_impl; [exact Hl|].
    intros b Hb. change (b < 128) in Hb. lia. }
  unfold strings.ToLower, strings.isASCII. rewrite Hround.
  replace (forallb (fun c => c <? utf8.RuneSelf) l) with true.
  2:{ symmetry. apply forallb_forall. intros b Hb. apply N.ltb_lt.
      unfold asciiBytes in Hl. rewrite Forall_forall in Hl.
      apply Hl, list_elem_of_In, Hb. }
  f_equal. unfold l. rewrite <- list_fmap_compose.
  apply list_fmap_ext. intros i b _. unfold slugByte, compose.
  destruct (isWord b); reflexivity.
Qed.

(** C7 fails on the code: the comma and the space of [Hello, World] are
    two adjacent characters outside the word class, and the slug has a
    separator for each of them. *)
Theorem slugify_adjacent_separators lower :
  slugify lower "Hello, World" = Done "hello--world".
Proof.
  rewrite slugify_ascii by reflexivity.
  reflexivity.
Qed.

(** ** The New controller *)

Lemma Redirect_StatusCode w r url code :
  StatusCode (Redirect w r url code) = code.
Proof.
  unfold Redirect.
  destruct (negb _ && (_ || _)); destruct (negb _ && String.eqb _ _); reflexivity.
Qed.

Lemma Redirect_Location w r url code :
  Header_Get (Headers (Redirect w r url code)) "Location" = url.
Proof.
  unfold Redirect.
  destruct (negb _ && (_ || _)); destruct (negb _ && String.eqb _ _);
    cbn [Headers Write WriteHeader SetHeader]; unfold Header_Get, Header_Set;
    rewrite ?lookup_insert_ne by discriminate;
    rewrite lookup_insert_eq; reflexivity.
Qed.

Section NewControllerClaims.
Context {DB : Type} `{Database DB} `{Templates} `{RegexpPackage}.

(** C10: on a request to the New controller that is not a GET, once the
    statement is prepared the error of [Exec] plays no part: with a nil
    result the handler panics on [LastInsertId], for want of any branch
    on the error, and with a result it redirects to the root with
    status 302, error or no error. *)
Theorem NewController_Run_ignores_Exec_error lower c w r db db1 stmt sl db2 res err :
  String.eqb (Method r) "GET" = false ->
  Prepare db insertStatement = (db1, inl stmt) ->
  slugify lower (FormValue r "title") = Done sl ->
  Exec db1 stmt [sl; FormValue r "title"; FormValue r "date"; FormValue r "content"]
    = (db2, (res, err)) ->
  NewController_Run lower c w r db =
    match res with
    | None => Panic nilDereference
    | Some _ => Done (c, Redirect w r "/" 302, db2)
    end
  /\ StatusCode (Redirect w r "/" 302) = 302%Z
  /\ Header_Get (Headers (Redirect w r "/" 302)) "Location" = "/".
Proof.
  intros Hmethod Hprepare Hslug Hexec.
  split; [|split; [apply Redirect_StatusCode | apply Redirect_Location]].
  unfold NewController_Run. rewrite Hmethod.
  fold insertStatement. rewrite Hprepare. cbn [checkErr bind].
  rewrite Hslug. cbn [bind slug title date content].
  rewrite Hexec. destruct res; reflexivity.
Qed.
End NewControllerClaims.

Lemma NewController_Run_ignores_Exec_error_witness :
  let r := mkRequest "POST" "/new" []
             [("title", "Hello, World"); ("date", "2018-02-01"); ("content", "Text")] in
  let db := mkTableDB [] false true in
  String.eqb (Method r) "GET" = false
  /\ Prepare db insertStatement = (db, inl insertStatement)
  /\ slugify (fun s => s) (FormValue r "title") = Done "hello--world"
  /\ Exec db insertStatement ["hello--world"; "Hello, World"; "2018-02-01"; "Text"]
     = (db, (None, Some "exec failed"))
  /\ NewController_Run (fun s => s) (mkController []) emptyResponse r db
     = Panic nilDereference.
Proof.
  intros r db.
  assert (Hmethod : String.eqb (Method r) "GET" = false) by reflexivity.
  assert (Hprepare : Prepare db insertStatement = (db, inl insertStatement))
    by reflexivity.
  assert (Hslug : slugify (fun s => s) (FormValue r "title") = Done "hello--world")
    by reflexivity.
  assert (Hexec :
    Exec db insertStatement ["hello--world"; FormValue r "title"; FormValue r "date";
                             FormValue r "content"]
    = (db, (None, Some "exec failed"))) by reflexivity.
  split; [exact Hmethod|]. split; [exact Hprepare|].
  split; [exact Hslug|]. split; [exact Hexec|].
  exact (proj1 (NewController_Run_ignores_Exec_error (fun s => s) (mkController [])
                  emptyResponse r db db insertStatement "hello--world" db None
                  (Some "exec failed") Hmethod Hprepare Hslug Hexec)).
Defined.

(** ** The edit flow *)

Lemma append_nil (s : string) : "" +:+ s = s.
Proof. reflexivity. Qed.

Lemma append_cons (x : ascii) (a b : string) : String x a +:+ b = String x (a +:+ b).
Proof. reflexivity. Qed.

Lemma append_assoc (a b c : string) : (a +:+ b) +:+ c = a +:+ (b +:+ c).
Proof.
  induction a as [|x a IH]; [reflexivity|].
  rewrite !append_cons, IH. reflexivity.
Qed.

Lemma HasPrefix_append (p s : string) : strings.HasPrefix (p +:+ s) p = true.
Proof.
  induction p as [|x p IH]; [destruct s; reflexivity|].
  rewrite append_cons. cbn [strings.HasPrefix].
  rewrite Ascii.eqb_refl. exact IH.
Qed.

Lemma Contains_unfold (s sub : string) :
  strings.Contains s sub =
  strings.HasPrefix s sub
  || match s with
     | EmptyString => false
     | String _ s' => strings.Contains s' sub
     end.
Proof. destruct s; reflexivity. Qed.

Lemma Contains_prefix (p s : string) : strings.Contains (p +:+ s) p = true.
Proof. rewrite Contains_unfold, HasPrefix_append. reflexivity. Qed.

Lemma Contains_append_r (a b sub : string) :
  strings.Contains b sub = true -> strings.Contains (a +:+ b) sub = true.
Proof.
  intros Hb. induction a as [|x a IH]; [exact Hb|].
  rewrite append_cons, Contains_unfold, IH. apply orb_true_r.
Qed.

Lemma redirect_Location w url :
  Header_Get (Headers (web.redirect w url)) "Location" = url.
Proof.
  unfold web.redirect, Header_Get. cbn [Headers WriteHeader SetHeader].
  unfold Header_Set. rewrite lookup_insert_eq. reflexivity.
Qed.

Section EditClaims.
Import web.
Context {S : Type} `{DataStore S} `{EditViews}.
Implicit Types (c : Edit) (w : FakeResponse) (r : Request) (db : S) (j : Journal).

(** [load] sends the store one query and nothing else. *)
Lemma load_store c db :
  (load c db).1 = (query db SelectBySlug [default "" (Params c !! 1%nat)]).1.
Proof.
  unfold load. destruct (query db SelectBySlug _) as [db' [rows|]]; [|reflexivity].
  destruct (Next rows) as [rows' more]. destruct more; reflexivity.
Qed.

Lemma invalid_spec r :
  invalid r = true <->
  FormValue r "title" = "" /\ FormValue r "date" = "" /\ FormValue r "content" = "".
Proof.
  unfold invalid. rewrite !andb_true_iff, !String.eqb_eq. tauto.
Qed.

(** C3: whatever the method, when the query for the slug brings no row
    the controller writes status 404 and the not-found page, whose
    text holds [Page Not Found], and does nothing more: the store has
    seen the query alone, the controller is as it was, and no header
    is set. *)
Theorem Edit_Run_not_found c w r db :
  (load c db).2 = None ->
  exists w',
    Edit_Run c w r db = Some (c, w', (load c db).1)
    /\ StatusCode w' = 404%Z
    /\ strings.Contains (Content w') "Page Not Found" = true
    /\ Headers w' = Headers w
    /\ (load c db).1 = (query db SelectBySlug [default "" (Params c !! 1%nat)]).1.
Proof.
  intros Hnone. eexists. split.
  { unfold Edit_Run. destruct (load c db) as [db' found]. simpl in Hnone.
    subst found. reflexivity. }
  cbn. repeat split.
  - apply Contains_append_r, notFoundPage_text.
  - apply load_store.
Qed.

(** The valid submission on any store: the update is executed with the
    submitted title, date and content for the slug of the entry, and
    the redirect to the root follows. *)
Lemma Edit_Run_valid_submission c w r db db' j :
  load c db = (db', Some j) ->
  Method r = "POST" ->
  invalid r = false ->
  Edit_Run c w r db =
  Some (c, redirect w "/?saved=1",
        (execute db' UpdateBySlug
           [FormValue r "title"; FormValue r "date"; FormValue r "content"; slug j]).1).
Proof.
  intros Hload Hpost Hvalid.
  unfold Edit_Run. rewrite Hload. unfold transition.
  rewrite Hpost. cbn [String.eqb Ascii.eqb Bool.eqb andb].
  rewrite Hvalid. cbn.
  destruct (execute db' UpdateBySlug _) as [db'' res]. reflexivity.
Qed.

(** The redirect of a saved submission is not the one of a rejected
    submission, whatever the slug. *)
Lemma length_append (a b : string) :
  String.length (a +:+ b) = (String.length a + String.length b)%nat.
Proof.
  induction a as [|x a IH]; [reflexivity|].
  rewrite append_cons. cbn [String.length]. rewrite IH. reflexivity.
Qed.

Lemma saved_is_not_error (sl : string) : "/?saved=1" <> "/" +:+ sl +:+ "/edit?error=1".
Proof.
  intros Heq. apply (f_equal String.length) in Heq.
  rewrite !length_append in Heq. cbn [String.length] in Heq. lia.
Qed.

(** C1: on a POST for an entry that exists the controller answers with
    status 302, and the redirect goes to the entry's edit path followed
    by [?error=1] exactly when title, date and content are all empty.
    In that case the store has seen the query alone: no update is
    executed. As soon as one of the three fields is not empty the
    submission is taken: the update is executed and the redirect goes
    to [/?saved=1]. *)
Theorem Edit_Run_empty_submission c w r db db' j :
  load c db = (db', Some j) ->
  Method r = "POST" ->
  exists w' db'',
    Edit_Run c w r db = Some (c, w', db'')
    /\ StatusCode w' = 302%Z
    /\ (Header_Get (Headers w') "Location" = "/" +:+ slug j +:+ "/edit?error=1"
        <-> FormValue r "title" = "" /\ FormValue r "date" = ""
            /\ FormValue r "content" = "")
    /\ (FormValue r "title" = "" /\ FormValue r "date" = "" /\ FormValue r "content" = "" ->
        (Path r = "/" +:+ slug j +:+ "/edit" ->
         Header_Get (Headers w') "Location" = Path r +:+ "?error=1")
        /\ db'' = db'
        /\ db'' = (query db SelectBySlug [default "" (Params c !! 1%nat)]).1)
    /\ (~ (FormValue r "title" = "" /\ FormValue r "date" = ""
           /\ FormValue r "content" = "") ->
        Header_Get (Headers w') "Location" = "/?saved=1"
        /\ db'' =
           (execute db' UpdateBySlug
              [FormValue r "title"; FormValue r "date"; FormValue r "content"; slug j]).1).
Proof.
  intros Hload Hpost.
  assert (Hloc : editPath j +:+ "?error=1" = "/" +:+ slug j +:+ "/edit?error=1").
  { unfold editPath. rewrite !append_assoc. reflexivity. }
  destruct (invalid r) eqn:Hinv.
  - assert (Hempty : FormValue r "title" = "" /\ FormValue r "date" = ""
                     /\ FormValue r "content" = "") by (apply invalid_spec, Hinv).
    exists (redirect w (editPath j +:+ "?error=1")), db'.
    split.
    { unfold Edit_Run. rewrite Hload. unfold transition.
      rewrite Hpost. cbn [String.eqb Ascii.eqb Bool.eqb andb].
      rewrite Hinv. reflexivity. }
    split; [reflexivity|].
    rewrite redirect_Location, Hloc.
    split; [split; [intros _; exact Hempty | reflexivity]|].
    split.
    + intros _. split.
      { intros Hpath. rewrite Hpath, !append_assoc. reflexivity. }
      split; [reflexivity|].
      rewrite <- load_store, Hload. reflexivity.
    + intros Hnot. contradiction.
  - assert (Hsome : ~ (FormValue r "title" = "" /\ FormValue r "date" = ""
                       /\ FormValue r "content" = "")).
    { intros Hempty. apply invalid_spec in Hempty. congruence. }
    eexists. eexists. split.
    { apply Edit_Run_valid_submission; eassumption. }
    split; [reflexivity|].
    rewrite redirect_Location.
    split.
    { split; [intros Heq; exfalso; exact (saved_is_not_error _ Heq) | intros Hempty; contradiction]. }
    split; [intros Hempty; contradiction|].
    intros _. split; reflexivity.
Qed.

End EditClaims.

(** *** The plain pages meet the contract of the views *)

Lemma HasPrefix_banner_escapeLt s :
  strings.HasPrefix (escapeLt s) web.errorBanner = false.
Proof.
  destruct s as [|c s]; [reflexivity|].
  cbn [escapeLt]. destruct (Ascii.eqb c "<") eqn:Hc; [reflexivity|].
  change (Ascii.eqb c "<" && strings.HasPrefix (escapeLt s)
            ("div class=" +:+ http.quote +:+ "error" +:+ http.quote +:+ ">") = false).
  rewrite Hc. reflexivity.
Qed.

Lemma Contains_banner_escapeLt s :
  strings.Contains (escapeLt s) web.errorBanner = false.
Proof.
  induction s as [|c s IH]; [reflexivity|].
  rewrite Contains_unfold, HasPrefix_banner_escapeLt. cbn [orb escapeLt].
  destruct (Ascii.eqb c "<").
  - cbn. exact IH.
  - exact IH.
Qed.

Lemma plainEdit_banner j e : strings.Contains (plainEdit j e) web.errorBanner = e.
Proof.
  unfold plainEdit. destruct e.
  - apply Contains_prefix.
  - rewrite append_nil. apply Contains_banner_escapeLt.
Qed.

#[export] Instance plainViews : web.EditViews := {
  truthy v := String.eqb v "1";
  renderEdit := plainEdit;
  notFoundPage := "<h1>Page Not Found</h1>";
  truthy_one := eq_refl;
  renderEdit_banner := plainEdit_banner;
  notFoundPage_text := eq_refl
}.

(** *** The edit flow on a store that keeps its rows *)

Section EditStoreClaims.
Import web.
Context `{EditViews}.
Implicit Types (c : Edit) (w : FakeResponse) (r : Request) (db : MemStore) (j : Journal).

(** What [load] finds in the table is a row of the table with the slug
    asked for, and the table is as it was. *)
Lemma MemStore_load c db db' j :
  load c db = (db', Some j) ->
  db' = mkMemStore (table db)
          (statements db ++ [(SelectBySlug, [default "" (Params c !! 1%nat)])])
  /\ slug j = default "" (Params c !! 1%nat)
  /\ j ∈ table db.
Proof.
  unfold load. cbn [query MemStore_store MemStore_Query Next Cursor_rows MemRows_cursor].
  cbn [pending].
  destruct (filter _ (table db)) as [|j0 rest] eqn:Hfilter; [discriminate|].
  cbn [Scan MemRows_cursor current default].
  intros [= <- <-]. split; [reflexivity|].
  assert (Hin : j0 ∈ filter (fun j => slug j = default "" (Params c !! 1%nat)) (table db)).
  { rewrite Hfilter. left. }
  apply list_elem_of_filter in Hin. exact Hin.
Qed.

Lemma Forall2_update (f : Journal -> Journal) (P : Journal -> Journal -> Prop)
    (l : list Journal) :
  (forall x, P x (f x)) -> Forall2 P l (f <$> l).
Proof.
  intros HP. induction l as [|x l IH]; constructor; [apply HP | exact IH].
Qed.

(** C2: on a POST for an entry that exists, with a submission that is
    not empty in all three fields, the controller sends the store the
    update for the entry's slug and redirects with status 302 to
    [/?saved=1]. After it every row with that slug has the submitted
    title, date and content, every row keeps its id and its slug, and
    the other rows are as they were. *)
Theorem Edit_Run_saves c w r db db' j :
  load c db = (db', Some j) ->
  Method r = "POST" ->
  invalid r = false ->
  let t := FormValue r "title" in
  let d := FormValue r "date" in
  let ct := FormValue r "content" in
  exists w' db'',
    Edit_Run c w r db = Some (c, w', db'')
    /\ StatusCode w' = 302%Z
    /\ Header_Get (Headers w') "Location" = "/?saved=1"
    /\ statements db'' =
       statements db ++ [(SelectBySlug, [slug j]); (UpdateBySlug, [t; d; ct; slug j])]
    /\ Forall2
         (fun old new =>
            id new = id old /\ slug new = slug old
            /\ (slug old = slug j -> title new = t /\ date new = d /\ content new = ct)
            /\ (slug old <> slug j -> new = old))
         (table db) (table db'')
    /\ j ∈ table db.
Proof.
  intros Hload Hpost Hvalid t d ct.
  destruct (MemStore_load _ _ _ _ Hload) as (Hdb' & Hslug & Hin).
  eexists. eexists. split.
  { apply Edit_Run_valid_submission; eassumption. }
  split; [reflexivity|].
  split; [apply redirect_Location|].
  subst db'. cbn [execute MemStore_store MemStore_Execute fst statements table].
  split.
  { rewrite Hslug, <- app_assoc. reflexivity. }
  split; [|exact Hin].
  apply Forall2_update. intros x.
  case_bool_decide as Hx; cbn [updated id slug title date content].
  - repeat split; congruence.
  - repeat split; congruence.
Qed.
End EditStoreClaims.

(** *** The scenarios of [TestEdit_Run] on the model *)

Example TestEdit_not_found_GET :
  let res := TestEdit.run web.MockEmptyRows (mkRequest "GET" "" [] []) in
  TestEdit.statusOf res = 404%Z
  /\ strings.Contains (TestEdit.bodyOf res) "Page Not Found" = true.
Proof. split; reflexivity. Qed.

Example TestEdit_not_found_POST :
  let res := TestEdit.run web.MockEmptyRows (mkRequest "POST" "" [] []) in
  TestEdit.statusOf res = 404%Z
  /\ strings.Contains (TestEdit.bodyOf res) "Page Not Found" = true.
Proof. split; reflexivity. Qed.

Example TestEdit_error_shown :
  let res := TestEdit.run (web.MockJournalSingleRow 0)
               (mkRequest "GET" "/test/edit" [("error", "1")] []) in
  TestEdit.errorOf res = true
  /\ strings.Contains (TestEdit.bodyOf res) web.errorBanner = true.
Proof. split; reflexivity. Qed.

Example TestEdit_no_error_shown :
  let res := TestEdit.run (web.MockJournalSingleRow 0)
               (mkRequest "GET" "/slug/edit" [] []) in
  TestEdit.errorOf res = false
  /\ strings.Contains (TestEdit.bodyOf res) web.errorBanner = false.
Proof. split; reflexivity. Qed.

Example TestEdit_empty_submission :
  let res := TestEdit.run (web.MockJournalSingleRow 0) TestEdit.emptyPost in
  TestEdit.statusOf res = 302%Z
  /\ TestEdit.locationOf res = "/slug/edit?error=1"
  /\ TestEdit.queriesOf res = 1%Z.
Proof. repeat split; reflexivity. Qed.

Example TestEdit_saved :
  let res := TestEdit.run (web.MockJournalSingleRow 0) TestEdit.fullPost in
  TestEdit.statusOf res = 302%Z
  /\ TestEdit.locationOf res = "/?saved=1"
  /\ TestEdit.queriesOf res = 2%Z.
Proof. repeat split; reflexivity. Qed.

(** *** The edit flow on a table of two entries *)

Lemma Edit_Run_not_found_witness :
  (web.load (editing "missing-slug") store).2 = None
  /\ exists w',
       web.Edit_Run (editing "missing-slug") emptyResponse
         (mkRequest "POST" "/missing-slug/edit" [] [("title", "T")]) store
       = Some (editing "missing-slug", w', queried "missing-slug")
       /\ StatusCode w' = 404%Z
       /\ strings.Contains (Content w') "Page Not Found" = true.
Proof.
  assert (Hnone : (web.load (editing "missing-slug") store).2 = None) by reflexivity.
  split; [exact Hnone|].
  destruct (Edit_Run_not_found (editing "missing-slug") emptyResponse
              (mkRequest "POST" "/missing-slug/edit" [] [("title", "T")]) store Hnone)
    as (w' & Hrun & Hstatus & Hbody & _).
  exists w'. split; [exact Hrun|]. split; [exact Hstatus | exact Hbody].
Defined.

Lemma Edit_Run_empty_submission_witness :
  web.load (editing "slug") store = (queried "slug", Some entry)
  /\ Method TestEdit.emptyPost = "POST"
  /\ FormValue TestEdit.emptyPost "title" = ""
  /\ FormValue TestEdit.emptyPost "date" = ""
  /\ FormValue TestEdit.emptyPost "content" = ""
  /\ exists w',
       web.Edit_Run (editing "slug") emptyResponse TestEdit.emptyPost store
       = Some (editing "slug", w', queried "slug")
       /\ StatusCode w' = 302%Z
       /\ Header_Get (Headers w') "Location" = "/slug/edit?error=1".
Proof.
  assert (Hload : web.load (editing "slug") store = (queried "slug", Some entry))
    by reflexivity.
  split; [exact Hload|]. do 4 (split; [reflexivity|]).
  destruct (Edit_Run_empty_submission (editing "slug") emptyResponse TestEdit.emptyPost
              store _ _ Hload eq_refl)
    as (w' & db'' & Hrun & Hstatus & Hloc & Hempty & _).
  assert (Hall : FormValue TestEdit.emptyPost "title" = ""
                 /\ FormValue TestEdit.emptyPost "date" = ""
                 /\ FormValue TestEdit.emptyPost "content" = "")
    by (repeat split; reflexivity).
  destruct (Hempty Hall) as (_ & Hdb & _).
  exists w'. split; [rewrite Hrun, Hdb; reflexivity|].
  split; [exact Hstatus|]. exact (proj2 Hloc Hall).
Defined.

Lemma Edit_Run_saves_witness :
  web.load (editing "slug") store = (queried "slug", Some entry)
  /\ Method TestEdit.fullPost = "POST"
  /\ web.invalid TestEdit.fullPost = false
  /\ exists w' db'',
       web.Edit_Run (editing "slug") emptyResponse TestEdit.fullPost store
       = Some (editing "slug", w', db'')
       /\ StatusCode w' = 302%Z
       /\ Header_Get (Headers w') "Location" = "/?saved=1"
       /\ web.table db'' =
          [mkJournal 1 "slug" "Title" "2018-02-01" "Test again";
           mkJournal 2 "other" "Other" "2018-03-01" "More"].
Proof.
  assert (Hload : web.load (editing "slug") store = (queried "slug", Some entry))
    by reflexivity.
  split; [exact Hload|]. do 2 (split; [reflexivity|]).
  destruct (Edit_Run_saves (editing "slug") emptyResponse TestEdit.fullPost
              store _ _ Hload eq_refl eq_refl)
    as (w' & db'' & Hrun & Hstatus & Hloc & _).
  exists w', db''. split; [exact Hrun|]. split; [exact Hstatus|]. split; [exact Hloc|].
  vm_compute in Hrun. injection Hrun as _ <-. reflexivity.
Defined.


(** * Further properties of the code *)

(** ** [slugify] on every title *)

Lemma land_shiftl_low (a b k : N) : b < 2 ^ k -> N.land (N.shiftl a k) b = 0.
Proof.
  intros Hb. apply N.bits_inj. intros n. rewrite N.land_spec, N.bits_0.
  destruct (N.lt_ge_cases n k) as [Hn|Hn].
  - rewrite N.shiftl_spec_low by exact Hn. reflexivity.
  - destruct (N.eq_dec b 0) as [->|Hb0]; [rewrite N.bits_0; apply andb_false_r|].
    rewrite (N.bits_above_log2 b n); [apply andb_false_r|].
    apply N.lt_le_trans with k; [|exact Hn].
    apply N.log2_lt_pow2; [lia | exact Hb].
Qed.

Lemma lor_shiftl_add (a b k : N) : b < 2 ^ k -> N.lor (N.shiftl a k) b = a * 2 ^ k + b.
Proof.
  intros Hb. rewrite <- N.lxor_lor by (apply land_shiftl_low; exact Hb).
  rewrite <- N.add_nocarry_lxor by (apply land_shiftl_low; exact Hb).
  rewrite N.shiftl_mul_pow2. reflexivity.
Qed.

Lemma land_low_bits (b n q : N) :
  2 ^ n * q <= b < 2 ^ n * (q + 1) -> N.land b (N.ones n) = b - 2 ^ n * q.
Proof.
  intros Hb. rewrite N.land_ones. symmetry.
  apply N.mod_unique with (q := q); lia.
Qed.

Lemma code2 (s0 s1 : N) :
  192 <= s0 < 224 -> 128 <= s1 < 192 ->
  N.lor (N.shiftl (N.land s0 31) 6) (N.land s1 63) = (s0 - 192) * 64 + (s1 - 128).
Proof.
  intros H0 H1.
  rewrite (land_low_bits s0 5 6 H0 : N.land s0 31 = s0 - 192).
  rewrite (land_low_bits s1 6 2 H1 : N.land s1 63 = s1 - 128).
  apply (lor_shiftl_add (s0 - 192) (s1 - 128) 6). change (2 ^ 6) with 64. lia.
Qed.

Lemma code3 (s0 s1 s2 : N) :
  224 <= s0 < 240 -> 128 <= s1 < 192 -> 128 <= s2 < 192 ->
  N.lor (N.shiftl (N.land s0 15) 12)
    (N.lor (N.shiftl (N.land s1 63) 6) (N.land s2 63))
  = (s0 - 224) * 4096 + ((s1 - 128) * 64 + (s2 - 128)).
Proof.
  intros H0 H1 H2.
  rewrite (land_low_bits s0 4 14 H0 : N.land s0 15 = s0 - 224).
  rewrite (land_low_bits s1 6 2 H1 : N.land s1 63 = s1 - 128).
  rewrite (land_low_bits s2 6 2 H2 : N.land s2 63 = s2 - 128).
  rewrite (lor_shiftl_add (s1 - 128) (s2 - 128) 6) by (change (2 ^ 6) with 64; lia).
  apply (lor_shiftl_add (s0 - 224) _ 12). change (2 ^ 12) with 4096. change (2 ^ 6) with 64. lia.
Qed.

Lemma code4 (s0 s1 s2 s3 : N) :
  240 <= s0 < 248 -> 128 <= s1 < 192 -> 128 <= s2 < 192 -> 128 <= s3 < 192 ->
  N.lor (N.shiftl (N.land s0 7) 18)
    (N.lor (N.shiftl (N.land s1 63) 12)
       (N.lor (N.shiftl (N.land s2 63) 6) (N.land s3 63)))
  = (s0 - 240) * 262144 + ((s1 - 128) * 4096 + ((s2 - 128) * 64 + (s3 - 128))).
Proof.
  intros H0 H1 H2 H3.
  rewrite (land_low_bits s0 3 30 H0 : N.land s0 7 = s0 - 240).
  rewrite (land_low_bits s1 6 2 H1 : N.land s1 63 = s1 - 128).
  rewrite (land_low_bits s2 6 2 H2 : N.land s2 63 = s2 - 128).
  rewrite (land_low_bits s3 6 2 H3 : N.land s3 63 = s3 - 128).
  rewrite (lor_shiftl_add (s2 - 128) (s3 - 128) 6) by (change (2 ^ 6) with 64; lia).
  rewrite (lor_shiftl_add (s1 - 128) _ 12)
    by (change (2 ^ 12) with 4096; change (2 ^ 6) with 64; lia).
  apply (lor_shiftl_add (s0 - 240) _ 18).
  change (2 ^ 18) with 262144. change (2 ^ 12) with 4096. change (2 ^ 6) with 64. lia.
Qed.

Ltac bool_to_N :=
  repeat match goal with
  | H : (_ <? _) = true |- _ => apply N.ltb_lt in H
  | H : (_ <? _) = false |- _ => apply N.ltb_ge in H
  | H : (_ <=? _) = true |- _ => apply N.leb_le in H
  | H : (_ <=? _) = false |- _ => apply N.leb_gt in H
  | H : (_ =? _) = true |- _ => apply N.eqb_eq in H
  | H : (_ =? _) = false |- _ => apply N.eqb_neq in H
  | H : _ || _ = false |- _ => apply orb_false_iff in H as [? ?]
  | H : _ && _ = true |- _ => apply andb_true_iff in H as [? ?]
  | H : negb _ = false |- _ => apply negb_false_iff in H
  end.

(** A decoded rune is an ASCII byte read as it stands, or lies beyond
    ASCII and within the Unicode range. *)
Lemma DecodeRune_cases (s0 : N) (t : bytes) :
  (utf8.DecodeRune (s0 :: t) = (s0, 1%nat) /\ s0 < 128)
  \/ (exists c w, utf8.DecodeRune (s0 :: t) = (c, w)
        /\ 128 <= c <= regexp.MaxRune /\ (1 <= w)%nat).
Proof.
  assert (Herr : forall w, (1 <= w)%nat ->
            exists c w', (utf8.RuneError, w) = (c, w')
              /\ 128 <= c <= regexp.MaxRune /\ (1 <= w')%nat).
  { intros w Hw. exists utf8.RuneError, w. split; [reflexivity|].
    split; [|exact Hw]. unfold utf8.RuneError, regexp.MaxRune. lia. }
  unfold utf8.DecodeRune, utf8.first, utf8.cont, utf8.locb, utf8.hicb.
  repeat match goal with
  | |- context [if ?b then _ else _] =>
      lazymatch b with
      | context [if _ then _ else _] => fail
      | _ => destruct b eqn:?
      end
  | |- context [match ?l with [] => _ | _ :: _ => _ end] => destruct l
  end;
  bool_to_N;
  try (left; split; [reflexivity | assumption]);
  try (right; apply Herr; lia).
  all: right; eexists; eexists; (split; [reflexivity|]); split; [|lia].
  all: unfold regexp.MaxRune.
  all: try match goal with
         | H : (?a <=? ?b)%nat = _ |- _ => vm_compute in H; discriminate H
         end.
  all: first [ rewrite code2 by lia | rewrite code3 by lia | rewrite code4 by lia ]; lia.
Qed.

Section slug_runes.
Import utf8.


Lemma decode_fuel_decoded (n : nat) (s : bytes) : Forall decoded (decode_fuel n s).
Proof.
  revert s. induction n as [|n IH]; intros s; [constructor|].
  destruct s as [|s0 t]; [constructor|].
  cbn [decode_fuel].
  destruct (DecodeRune_cases s0 t) as [[-> Hlt]|(c & w & -> & Hc & Hw)].
  - constructor; [|apply IH]. left. split; [reflexivity | exact Hlt].
  - constructor; [|apply IH]. right. exact Hc.
Qed.

Lemma decode_fuel_length (n : nat) (s : bytes) :
  (length (decode_fuel n s) <= length s)%nat.
Proof.
  revert s. induction n as [|n IH]; intros s; [cbn; lia|].
  destruct s as [|s0 t]; [cbn; lia|].
  cbn [decode_fuel].
  destruct (DecodeRune_cases s0 t) as [[-> Hlt]|(c & w & -> & Hc & Hw)];
    cbn [length]; specialize (IH (drop w (s0 :: t))) || specialize (IH (drop 1 (s0 :: t))).
  - rewrite length_drop in IH. cbn [length] in *. lia.
  - rewrite length_drop in IH. cbn [length] in *. lia.
Qed.

Lemma in_class_beyond_ascii (c : N) :
  128 <= c <= regexp.MaxRune -> regexp.in_class false slugClass c = true.
Proof.
  unfold regexp.MaxRune. intros Hc.
  unfold regexp.in_class, regexp.in_ranges, slugClass. cbn [existsb xorb].
  replace (123 <=? c) with true by (symmetry; apply N.leb_le; lia).
  replace (c <=? 1114111) with true by (symmetry; apply N.leb_le; lia).
  cbn [andb]. rewrite !orb_true_r. reflexivity.
Qed.

Lemma replaced_decoded (l : list rune) :
  Forall decoded l ->
  concat (replaced false slugClass [regexp.ch "-"] <$> l)
  = (fun r => if regexp.in_class false slugClass (code r)
              then regexp.ch "-" else code r) <$> l.
Proof.
  induction 1 as [|r l Hr _ IH]; [reflexivity|].
  cbn [fmap list_fmap concat]. rewrite IH. unfold replaced.
  destruct Hr as [[Hraw _]|Hbig].
  - rewrite Hraw. destruct (regexp.in_class false slugClass (code r)); reflexivity.
  - rewrite (in_class_beyond_ascii _ Hbig). reflexivity.
Qed.

(** The slug of any title, rune by rune. *)
Lemma slugify_runes lower s :
  slugify lower s
  = Done (string_of_bytes (slugRuneByte <$> decode (bytes_of_string s))).
Proof.
  rewrite slugify_returns. f_equal.
  unfold nonWordOrPlus. rewrite ReplaceAllString_class.
  change (bytes_of_string "-") with [regexp.ch "-"].
  pose proof (decode_fuel_decoded (length (bytes_of_string s)) (bytes_of_string s)) as Hdec.
  fold (decode (bytes_of_string s)) in Hdec.
  rewrite (replaced_decoded _ Hdec).
  set (l := _ <$> decode (bytes_of_string s)).
  assert (Hl : asciiBytes l).
  { unfold l, asciiBytes. apply Forall_fmap.
    eapply Forall_impl; [exact Hdec|]. intros r Hr.
    change ((if regexp.in_class false slugClass (code r)
             then regexp.ch "-" else code r) < RuneSelf).
    destruct Hr as [[_ Hlt]|Hbig].
    - destruct (regexp.in_class false slugClass (code r)); [reflexivity | exact Hlt].
    - rewrite (in_class_beyond_ascii _ Hbig). reflexivity. }
  assert (Hround : bytes_of_string (string_of_bytes l) = l).
  { apply bytes_of_string_of_bytes. eapply Forall_impl; [exact Hl|].
    intros b Hb. change (b < 128) in Hb. lia. }
  unfold strings.ToLower, strings.isASCII. rewrite Hround.
  replace (forallb (fun c => c <? RuneSelf) l) with true.
  2:{ symmetry. apply forallb_forall. intros b Hb. apply N.ltb_lt.
      unfold asciiBytes in Hl. rewrite Forall_forall in Hl.
      apply Hl, list_elem_of_In, Hb. }
  f_equal. unfold l. rewrite <- list_fmap_compose.
  apply list_fmap_ext. intros i r _. unfold slugRuneByte, compose.
  destruct (regexp.in_class false slugClass (code r)); reflexivity.
Qed.

Lemma slugChar_ascii (b : N) :
  b < RuneSelf -> isWord b = true -> slugChar (strings.lowerByte b) = true.
Proof.
  intros Hb.
  assert (Hall : forallb (fun n => implb (isWord (N.of_nat n))
                                     (slugChar (strings.lowerByte (N.of_nat n))))
                   (seq 0 128) = true) by (vm_compute; reflexivity).
  rewrite forallb_forall in Hall.
  specialize (Hall (N.to_nat b)). rewrite N2Nat.id in Hall.
  intros Hw. rewrite Hw in Hall. apply Hall, in_seq. change (b < 128) in Hb. lia.
Qed.

Lemma slugRuneByte_slugChar (r : rune) : decoded r -> slugChar (slugRuneByte r) = true.
Proof.
  intros Hr. unfold slugRuneByte. destruct Hr as [[_ Hlt]|Hbig].
  - rewrite (slugClass_ascii _ Hlt). destruct (isWord (code r)) eqn:Hw; [|reflexivity].
    apply slugChar_ascii; assumption.
  - rewrite (in_class_beyond_ascii _ Hbig). reflexivity.
Qed.

Lemma slugChar_lt (b : N) : slugChar b = true -> b < 128.
Proof.
  unfold slugChar. rewrite !orb_true_iff, !andb_true_iff, !N.leb_le, !N.eqb_eq.
  change (regexp.ch "9") with 57. change (regexp.ch "z") with 122.
  change (regexp.ch "_") with 95. change (regexp.ch "-") with 45. lia.
Qed.

Lemma slugByte_fixed (b : N) : slugChar b = true -> slugByte b = b.
Proof.
  intros Hb. pose proof (slugChar_lt b Hb) as Hlt.
  assert (Hall : forallb (fun n => implb (slugChar (N.of_nat n))
                                     (slugByte (N.of_nat n) =? N.of_nat n))
                   (seq 0 128) = true) by (vm_compute; reflexivity).
  rewrite forallb_forall in Hall.
  specialize (Hall (N.to_nat b)). rewrite N2Nat.id, Hb in Hall.
  apply N.eqb_eq, Hall, in_seq. lia.
Qed.

Lemma length_string_of_bytes (l : bytes) : String.length (string_of_bytes l) = length l.
Proof.
  unfold string_of_bytes. induction l as [|b l IH]; [reflexivity|].
  cbn. f_equal. exact IH.
Qed.

Lemma length_bytes_of_string (s : string) : length (bytes_of_string s) = String.length s.
Proof.
  unfold bytes_of_string. induction s as [|c s IH]; [reflexivity|].
  cbn. f_equal. exact IH.
Qed.

Lemma slug_bytes (s : string) :
  let out := slugRuneByte <$> decode (bytes_of_string s) in
  Forall (fun b => slugChar b = true) out
  /\ bytes_of_string (string_of_bytes out) = out.
Proof.
  intros out.
  assert (Hsafe : Forall (fun b => slugChar b = true) out).
  { unfold out. apply Forall_fmap.
    eapply Forall_impl; [apply decode_fuel_decoded|].
    intros r Hr. apply slugRuneByte_slugChar, Hr. }
  split; [exact Hsafe|].
  apply bytes_of_string_of_bytes. eapply Forall_impl; [exact Hsafe|].
  intros b Hb. apply slugChar_lt in Hb. lia.
Qed.

(** X7: whatever the title, [slugify] returns, and the slug is made of
    digits, small letters, underscores and hyphens alone; the Unicode
    path of [ToLower] plays no part. *)
Theorem slugify_url_safe lower s :
  exists out,
    slugify lower s = Done out
    /\ Forall (fun b => slugChar b = true) (bytes_of_string out).
Proof.
  eexists. split; [apply slugify_runes|].
  destruct (slug_bytes s) as [Hsafe ->]. exact Hsafe.
Qed.

(** X8: a slug is its own slug. *)
Theorem slugify_idempotent lower s out :
  slugify lower s = Done out -> slugify lower out = Done out.
Proof.
  rewrite slugify_runes. intros [= <-].
  destruct (slug_bytes s) as [Hsafe Hround].
  set (l := slugRuneByte <$> decode (bytes_of_string s)) in *.
  rewrite slugify_ascii.
  - rewrite Hround. f_equal. f_equal.
    rewrite <- (list_fmap_id l) at 2. apply Forall_fmap_ext_1.
    eapply Forall_impl; [exact Hsafe|]. intros b Hb. apply slugByte_fixed, Hb.
  - apply isASCII_spec. rewrite Hround. eapply Forall_impl; [exact Hsafe|].
    intros b Hb. apply slugChar_lt, Hb.
Qed.

Lemma decode_cons (c : ascii) (s : string) :
  length (decode (bytes_of_string (String c s)))
  = S (length (List.tl (decode (bytes_of_string (String c s))))).
Proof.
  unfold decode, bytes_of_string.
  cbn [list_ascii_of_string fmap list_fmap length decode_fuel].
  destruct (DecodeRune _). reflexivity.
Qed.

(** X9: the slug has one character for each rune of the title: it is
    never longer than the title, as long as an ASCII title, and empty
    for the empty title alone. *)
Theorem slugify_length lower s :
  exists out,
    slugify lower s = Done out
    /\ (String.length out <= String.length s)%nat
    /\ (strings.isASCII s = true -> String.length out = String.length s)
    /\ (out = "" <-> s = "").
Proof.
  eexists. split; [apply slugify_runes|].
  rewrite length_string_of_bytes, length_fmap, <- length_bytes_of_string.
  split; [apply decode_fuel_length|]. split.
  - intros Hs. apply isASCII_spec in Hs. rewrite (decode_ascii _ Hs), length_fmap.
    reflexivity.
  - split.
    + intros Hout. destruct s as [|c s]; [reflexivity|].
      apply (f_equal String.length) in Hout.
      rewrite length_string_of_bytes, length_fmap in Hout.
      rewrite (decode_cons c s) in Hout. discriminate Hout.
    + intros ->. reflexivity.
Qed.
End slug_runes.

(** ** The view route *)

Section view_pattern.
Import utf8 regexp.

Lemma viewClass_ascii (b : N) : in_ranges viewClass b = true -> b < 128.
Proof.
  unfold in_ranges.
  change viewClass with [(48, 57); (65, 90); (95, 95); (97, 122); (45, 45)].
  cbn [existsb]. rewrite !orb_true_iff, !andb_true_iff, !N.leb_le. lia.
Qed.

Lemma star_loop_class {R : Type} (neg : bool) (rs : list (N * N)) (n : nat)
    (s : list rune) (k : list rune -> option R) (x : R) :
  Forall (fun c => in_class neg rs (code c) = true) s ->
  (length s <= n)%nat ->
  k [] = Some x ->
  star_loop (exec (CharClass neg rs)) n s k = Some x.
Proof.
  intros Hs. revert n. induction Hs as [|c s Hc _ IH]; intros n Hn Hk.
  - destruct n; cbn [star_loop exec]; rewrite ?Hk; reflexivity.
  - destruct n as [|n]; [cbn [length] in Hn; lia|].
    cbn [star_loop exec]. rewrite Hc.
    replace (length s <? length (c :: s))%nat with true
      by (symmetry; apply Nat.ltb_lt; cbn [length]; lia).
    rewrite IH by (cbn [length] in Hn; lia || exact Hk). reflexivity.
Qed.

Lemma match_here_view (wr : list rune) :
  wr <> [] ->
  Forall (fun c => in_class false viewClass (code c) = true) wr ->
  match_here viewRe (asRune 47 :: wr) = Some (S (length wr)).
Proof.
  intros Hne Hwr. destruct Hwr as [|c wr Hc Hwr]; [congruence|].
  unfold match_here, viewRe. cbn [exec literal asRune code].
  change (in_class false [(47, 47)] 47) with true. cbn iota.
  rewrite Hc.
  refine (star_loop_class false viewClass (length wr) wr _ _ Hwr _ _).
  - lia.
  - reflexivity.
Qed.

Lemma match_here_view_nil : match_here viewRe [] = None.
Proof. reflexivity. Qed.

Lemma allMatches_view (wr : list rune) :
  wr <> [] ->
  Forall (fun c => in_class false viewClass (code c) = true) wr ->
  let inp := asRune 47 :: wr in
  allMatches (length inp + 2) viewRe inp 0 None = [(0%nat, length inp)]
  /\ doExecute viewRe inp 0 = Some (0%nat, length inp).
Proof.
  intros Hne Hwr inp.
  assert (Hexec : doExecute viewRe inp 0 = Some (0%nat, length inp)).
  { unfold doExecute. rewrite drop_0. unfold inp at 1. cbn [search].
    rewrite (match_here_view wr Hne Hwr). reflexivity. }
  split; [|exact Hexec].
  replace (length inp + 2)%nat with (S (S (length inp))) by lia.
  cbn [allMatches]. rewrite Hexec.
  replace (length inp <? 0)%nat with false by reflexivity.
  replace (length inp =? 0)%nat with false by reflexivity.
  cbn [andb negb app].
  replace (length inp <? length inp)%nat with false
    by (symmetry; apply Nat.ltb_irrefl).
  unfold doExecute. rewrite drop_all. reflexivity.
Qed.

Lemma string_of_bytes_of_string (s : string) : string_of_bytes (bytes_of_string s) = s.
Proof.
  unfold string_of_bytes, bytes_of_string. rewrite <- list_fmap_compose.
  rewrite <- (string_of_list_ascii_of_string s) at 2. f_equal.
  rewrite <- (list_fmap_id (list_ascii_of_string s)) at 2.
  apply list_fmap_ext. intros i a _. apply ascii_N_embedding.
Qed.

Lemma encode_asRune (l : bytes) : encode (asRune <$> l) = l.
Proof.
  unfold encode. induction l as [|b l IH]; [reflexivity|].
  cbn. f_equal. exact IH.
Qed.

Lemma view_matches (w : string) :
  entryName w ->
  regexp.MatchRegexp viewRe ("/" +:+ w) = true
  /\ regexp.FindAllString viewRe ("/" +:+ w) = ["/" +:+ w].
Proof.
  intros [Hne Hall].
  assert (Hascii : asciiBytes (bytes_of_string ("/" +:+ w))).
  { change (bytes_of_string ("/" +:+ w)) with (47 :: bytes_of_string w).
    constructor; [reflexivity|]. eapply Forall_impl; [exact Hall|].
    intros b Hb. apply viewClass_ascii, Hb. }
  assert (Hdec : decode (bytes_of_string ("/" +:+ w))
                 = asRune 47 :: (asRune <$> bytes_of_string w)).
  { rewrite (decode_ascii _ Hascii). reflexivity. }
  assert (Hwr : Forall (fun c => in_class false viewClass (code c) = true)
                  (asRune <$> bytes_of_string w)).
  { apply Forall_fmap. eapply Forall_impl; [exact Hall|]. intros b Hb. exact Hb. }
  assert (Hne' : asRune <$> bytes_of_string w <> []).
  { destruct (bytes_of_string w); [congruence | discriminate]. }
  destruct (allMatches_view _ Hne' Hwr) as [Hall' Hexec].
  split.
  - unfold regexp.MatchRegexp. rewrite Hdec, Hexec. reflexivity.
  - unfold regexp.FindAllString. rewrite Hdec, Hall'. cbn [fmap list_fmap].
    f_equal. unfold slice. rewrite drop_0, Nat.sub_0_r, firstn_all.
    change (asRune 47 :: (asRune <$> bytes_of_string w))
      with (asRune <$> (47 :: bytes_of_string w)).
    rewrite encode_asRune.
    change (47 :: bytes_of_string w) with (bytes_of_string ("/" +:+ w)).
    apply string_of_bytes_of_string.
Qed.
End view_pattern.

Lemma slugChar_viewClass (b : N) :
  slugChar b = true -> regexp.in_ranges viewClass b = true.
Proof.
  intros Hb. pose proof (slugChar_lt b Hb) as Hlt.
  assert (Hall : forallb (fun n => implb (slugChar (N.of_nat n))
                                     (regexp.in_ranges viewClass (N.of_nat n)))
                   (seq 0 128) = true) by (vm_compute; reflexivity).
  rewrite forallb_forall in Hall.
  specialize (Hall (N.to_nat b)). rewrite N2Nat.id, Hb in Hall.
  apply Hall, in_seq. lia.
Qed.

Lemma MatchString_view (w : string) :
  entryName w -> MatchString "\/([\w\-]+)" ("/" +:+ w) = (true, false).
Proof.
  intros Hw. unfold MatchString.
  change (Compile "\/([\w\-]+)") with (Some viewRe).
  cbn [MatchRegexp goRegexp].
  rewrite (proj1 (view_matches w Hw)). reflexivity.
Qed.

Lemma view_route_chosen (r : Request) (w : string) :
  Method r = "GET" -> Path r = "/" +:+ w -> entryName w -> w <> "new" ->
  firstMatch main_mux r = Some viewRoute
  /\ literalMatch r viewRoute = false.
Proof.
  destruct r as [meth path q pf]. cbn [Method Path]. intros -> -> Hw Hnew.
  assert (E0 : String.eqb ("/" +:+ w) "/" = false).
  { apply String.eqb_neq. intros Heq. destruct Hw as [Hne _]. apply Hne.
    destruct w; [reflexivity | discriminate Heq]. }
  assert (E1 : String.eqb ("/" +:+ w) "/new" = false).
  { apply String.eqb_neq. intros Heq. apply Hnew. injection Heq as Heq. exact Heq. }
  assert (E3 : String.eqb ("/" +:+ w) "\/([\w\-]+)" = false) by reflexivity.
  pose proof (MatchString_view w Hw) as EM.
  remember ("/" +:+ w) as p eqn:Hp. clear Hp.
  unfold firstMatch.
  change (routes main_mux)
    with [mkRoute "GET" "/" false 0; mkRoute "GET" "/new" false 1;
          mkRoute "POST" "/new" false 2; viewRoute].
  unfold viewRoute, routeMatches, literalMatch, patternMatch, methodMatches.
  cbn [find method uri matchable Method Path].
  rewrite E0, E1, E3, EM. split; reflexivity.
Qed.

Section ViewExtras.
Context {C DB : Type} {HC : ControllerInterface C DB}.
Implicit Types (st : Server C DB) (r : Request).

(** X10: on the routes of [main], a GET of a slash followed by an entry
    name other than [new] goes to the View controller, whose parameters
    are set to the one match of the view pattern: the whole path, with
    its slash. *)
Theorem ServeHTTP_view_params st r w :
  Method r = "GET" -> Path r = "/" +:+ w -> entryName w -> w <> "new" ->
  ServeHTTP main_mux st r =
  (let* st1 := callSetParams 3 [Path r] (Printf (Method r +:+ ": " +:+ Path r) st) in
   callRun 3 st1 r).
Proof.
  intros Hm Hp Hw Hnew.
  destruct (view_route_chosen r w Hm Hp Hw Hnew) as [Hfirst Hlit].
  rewrite ServeHTTP_firstMatch, Hfirst. unfold dispatch. rewrite Hlit.
  assert (Hc : MustCompile (uri viewRoute) = Done viewRe) by reflexivity.
  rewrite Hc. cbn [bind controller viewRoute FindAllString goRegexp].
  rewrite Hp at 1. rewrite (proj2 (view_matches w Hw)), <- Hp. reflexivity.
Qed.

(** The slug of a title that is not empty is an entry name. *)
Lemma slug_entryName lower title sl :
  slugify lower title = Done sl -> title <> "" -> entryName sl.
Proof.
  intros Hslug Htitle.
  rewrite slugify_runes in Hslug. injection Hslug as <-.
  destruct (slug_bytes title) as [Hsafe Hround]. unfold entryName, nameBytes.
  rewrite Hround. split.
  - destruct title as [|c t]; [congruence|].
    intros Hnil. apply (f_equal length) in Hnil.
    rewrite length_fmap, (decode_cons c t) in Hnil. discriminate Hnil.
  - eapply Forall_impl; [exact Hsafe|]. intros b Hb. apply slugChar_viewClass, Hb.
Qed.

(** X11: the page of an entry is reachable: for a title that is not
    empty and whose slug is not [new], a GET of a slash followed by the
    slug goes to the View controller with that path as its parameter. *)
Theorem slug_page_is_viewable lower title sl st r :
  slugify lower title = Done sl ->
  title <> "" -> sl <> "new" ->
  Method r = "GET" -> Path r = "/" +:+ sl ->
  ServeHTTP main_mux st r =
  (let* st1 := callSetParams 3 ["/" +:+ sl] (Printf ("GET: /" +:+ sl) st) in
   callRun 3 st1 r).
Proof.
  intros Hslug Htitle Hnew Hm Hp.
  pose proof (slug_entryName lower title sl Hslug Htitle) as Hname.
  destruct (view_route_chosen r sl Hm Hp Hname Hnew) as [Hfirst Hlit].
  rewrite ServeHTTP_firstMatch, Hfirst. unfold dispatch. rewrite Hlit.
  assert (Hc : MustCompile (uri viewRoute) = Done viewRe) by reflexivity.
  rewrite Hc. cbn [bind controller viewRoute FindAllString goRegexp].
  rewrite Hm, Hp, (proj2 (view_matches sl Hname)). reflexivity.
Qed.
End ViewExtras.

(** ** More on the router *)

Section RouterExtras.
Context {C DB : Type} `{ControllerInterface C DB} `{RegexpPackage}.
Implicit Types (st : Server C DB) (r : Request) (rt : route) (m : mux).

Local Abbreviation entry r st := (Printf (Method r +:+ ": " +:+ Path r) st).

Lemma find_snoc {A : Type} (f : A -> bool) (l : list A) (x : A) :
  find f (l ++ [x]) =
  match find f l with
  | Some y => Some y
  | None => if f x then Some x else None
  end.
Proof.
  induction l as [|a l IH]; simpl; [reflexivity|].
  destruct (f a); [reflexivity | exact IH].
Qed.

(** X1: registering one more route changes nothing for a request an
    earlier route matches; a request no earlier route matches goes to
    the new route when that matches, and is served as before when it
    does not. *)
Theorem ServeHTTP_add m t u a c st r :
  ServeHTTP (add m t u a c) st r =
  match firstMatch m r with
  | Some _ => ServeHTTP m st r
  | None =>
      if routeMatches r (mkRoute t u a c)
      then dispatch (mkRoute t u a c) (entry r st) r
      else ServeHTTP m st r
  end.
Proof.
  rewrite !ServeHTTP_firstMatch. unfold firstMatch, add. cbn [routes].
  rewrite find_snoc. destruct (find (routeMatches r) (routes m)); [reflexivity|].
  destruct (routeMatches r (mkRoute t u a c)); reflexivity.
Qed.

Lemma find_shadowed {A : Type} (f : A -> bool) (pre mid post : list A) (x y : A) :
  (f y = true -> f x = true) ->
  find f (pre ++ x :: mid ++ y :: post) = find f (pre ++ x :: mid ++ post).
Proof.
  intros Hxy. induction pre as [|a pre IH]; simpl.
  - destruct (f x) eqn:Hx; [reflexivity|].
    assert (Hy : f y = false).
    { destruct (f y); [|reflexivity]. specialize (Hxy eq_refl). congruence. }
    induction mid as [|b mid IHm]; simpl.
    + rewrite Hy. reflexivity.
    + destruct (f b); [reflexivity | exact IHm].
  - destruct (f a); [reflexivity | exact IH].
Qed.

Lemma routeMatches_shadow r rt1 rt2 :
  method rt2 = method rt1 -> uri rt2 = uri rt1 ->
  (matchable rt2 = true -> matchable rt1 = true) ->
  routeMatches r rt2 = true -> routeMatches r rt1 = true.
Proof.
  intros Hm Hu Hp. unfold routeMatches, literalMatch, patternMatch, methodMatches.
  rewrite Hm, Hu. destruct (matchable rt2).
  - rewrite (Hp eq_refl). auto.
  - cbn [andb]. rewrite orb_false_r. intros ->. reflexivity.
Qed.

(** X2: a route registered after a route with the same method and the
    same string is never reached, unless it alone is a pattern: taking
    it out of the list changes no answer. *)
Theorem ServeHTTP_shadowed_route pre rt1 mid rt2 post st r :
  method rt2 = method rt1 ->
  uri rt2 = uri rt1 ->
  (matchable rt2 = true -> matchable rt1 = true) ->
  ServeHTTP (mkMux (pre ++ rt1 :: mid ++ rt2 :: post)) st r
  = ServeHTTP (mkMux (pre ++ rt1 :: mid ++ post)) st r.
Proof.
  intros Hm Hu Hp. rewrite !ServeHTTP_firstMatch. unfold firstMatch. cbn [routes].
  rewrite (find_shadowed (routeMatches r) pre mid post rt1 rt2); [reflexivity|].
  apply routeMatches_shadow; assumption.
Qed.

Lemma callRun_heap c st r st' :
  callRun c st r = Done st' ->
  length (heap st') = length (heap st)
  /\ forall c', c' <> c -> heap st' !! c' = heap st !! c'.
Proof.
  unfold callRun. destruct (heap st !! c) as [ctl|]; [|discriminate].
  destruct (Run ctl (response st) r (database st)) as [[[ctl' w] db]| |];
    simpl; [|discriminate..].
  intros [= <-]. cbn [heap]. split; [apply length_insert|].
  intros c' Hc'. apply list_lookup_insert_ne. congruence.
Qed.

Lemma callSetParams_heap c p st st' :
  callSetParams c p st = Done st' ->
  length (heap st') = length (heap st)
  /\ forall c', c' <> c -> heap st' !! c' = heap st !! c'.
Proof.
  unfold callSetParams. destruct (heap st !! c) as [ctl|]; [|discriminate].
  intros [= <-]. cbn [heap]. split; [apply length_insert|].
  intros c' Hc'. apply list_lookup_insert_ne. congruence.
Qed.

Lemma dispatch_heap rt st r st' :
  dispatch rt st r = Done st' ->
  length (heap st') = length (heap st)
  /\ forall c', c' <> controller rt -> heap st' !! c' = heap st !! c'.
Proof.
  unfold dispatch. destruct (literalMatch r rt); [apply callRun_heap|].
  destruct (MustCompile (uri rt)) as [re| |]; simpl; [|discriminate..].
  destruct (callSetParams _ _ st) as [st1| |] eqn:Hset; simpl; [|discriminate..].
  intros Hrun. apply callSetParams_heap in Hset as [Hl1 Hh1].
  apply callRun_heap in Hrun as [Hl2 Hh2]. split; [congruence|].
  intros c' Hc'. rewrite Hh2, Hh1 by exact Hc'. reflexivity.
Qed.

(** X3: serving a request leaves every controller but the one of the
    route chosen as it was, and the number of controllers unchanged. *)
Theorem ServeHTTP_other_controllers_untouched m st r st' :
  ServeHTTP m st r = Done st' ->
  length (heap st') = length (heap st)
  /\ forall c',
       (forall rt, firstMatch m r = Some rt -> c' <> controller rt) ->
       heap st' !! c' = heap st !! c'.
Proof.
  rewrite ServeHTTP_firstMatch. destruct (firstMatch m r) as [rt|].
  - intros Hd. apply dispatch_heap in Hd as [Hl Hh]. split; [exact Hl|].
    intros c' Hc'. apply Hh, Hc'. reflexivity.
  - intros [= <-]. split; reflexivity.
Qed.

(** X4: the router does not panic of its own: a pattern is compiled with
    [MustCompile] only once [MatchString] has matched it, so that, with
    a controller behind every route and a [Run] that returns, [ServeHTTP]
    returns. *)
Theorem ServeHTTP_returns m st r :
  Forall (fun rt => is_Some (heap st !! controller rt)) (routes m) ->
  (forall ctl, exists res, Run ctl (response st) r (database st) = Done res) ->
  exists st', ServeHTTP m st r = Done st'.
Proof.
  intros Hheap Hrun. rewrite ServeHTTP_firstMatch.
  destruct (firstMatch m r) as [rt|] eqn:Hfirst; [|eexists; reflexivity].
  unfold firstMatch in Hfirst.
  assert (Hin : In rt (routes m) /\ routeMatches r rt = true)
    by (apply find_some; exact Hfirst).
  destruct Hin as [Hin Hrt].
  rewrite Forall_forall in Hheap. apply list_elem_of_In in Hin.
  destruct (Hheap rt Hin) as [ctl Hctl].
  assert (Hcall : forall ctl0 st0, heap st0 !! controller rt = Some ctl0 ->
            response st0 = response st -> database st0 = database st ->
            exists st', callRun (controller rt) st0 r = Done st').
  { intros ctl0 st0 Hc0 Hw Hdb. unfold callRun. rewrite Hc0, Hw, Hdb.
    destruct (Hrun ctl0) as [[[ctl' w] db] ->]. eexists. reflexivity. }
  unfold dispatch. destruct (literalMatch r rt) eqn:Hlit.
  - apply (Hcall ctl); [exact Hctl | reflexivity..].
  - unfold routeMatches in Hrt. rewrite Hlit in Hrt. cbn [orb] in Hrt.
    unfold patternMatch in Hrt. apply andb_true_iff in Hrt as [Hrt _].
    apply andb_true_iff in Hrt as [_ Hmatched].
    destruct (matched_compiles _ _ Hmatched) as (re & Hre & _).
    unfold MustCompile. rewrite Hre. cbn [bind].
    unfold callSetParams. cbn [heap Printf]. rewrite Hctl. cbn [bind].
    eapply Hcall; [|reflexivity..]. cbn [heap].
    apply list_lookup_insert_eq. eapply lookup_lt_Some. exact Hctl.
Qed.

Lemma firstMatch_empty_method m r :
  Method r = "" ->
  Forall (fun rt => method rt <> "") (routes m) ->
  firstMatch m r = firstMatch m (withMethod "GET" r).
Proof.
  intros Hempty Hall. unfold firstMatch.
  induction Hall as [|rt rs Hrt _ IH]; [reflexivity|].
  cbn [find]. rewrite IH.
  assert (Hsame : routeMatches r rt = routeMatches (withMethod "GET" r) rt).
  { unfold routeMatches, literalMatch, patternMatch, methodMatches.
    cbn [withMethod Method Path]. rewrite Hempty.
    apply String.eqb_neq in Hrt. rewrite (String.eqb_sym "" (method rt)), Hrt.
    rewrite (String.eqb_sym "GET" (method rt)).
    cbn [String.eqb andb orb]. destruct (String.eqb (method rt) "GET"); reflexivity. }
  rewrite Hsame. reflexivity.
Qed.

(** X5: when no route has the empty method, a request with the empty
    method is given the route that the same request with method GET is
    given, and is answered not-found when that one is; the controller
    still sees the request with its empty method. *)
Theorem empty_method_served_as_GET m st r :
  Method r = "" ->
  Forall (fun rt => method rt <> "") (routes m) ->
  ServeHTTP m st r =
  match firstMatch m (withMethod "GET" r) with
  | Some rt => dispatch rt (entry r st) r
  | None => Done (notFoundReply (entry r st) r)
  end.
Proof.
  intros Hempty Hall.
  rewrite ServeHTTP_firstMatch, (firstMatch_empty_method m r Hempty Hall).
  reflexivity.
Qed.
End RouterExtras.

(** ** The controllers of [main.go] *)

Section MainRoutes.
Context {C DB : Type} `{ControllerInterface C DB} `{RegexpPackage}.
Implicit Types (st : Server C DB) (r : Request).

Lemma routeMatches_needs_method r rt :
  methodMatches r rt = false -> routeMatches r rt = false.
Proof.
  intros Hm. destruct (routeMatches r rt) eqn:Hrt; [|reflexivity].
  apply routeMatches_method in Hrt. congruence.
Qed.

Lemma firstMatch_submission r :
  Method r = "POST" -> Path r = "/new" ->
  firstMatch main_mux r = Some (mkRoute "POST" "/new" false 2)
  /\ literalMatch r (mkRoute "POST" "/new" false 2) = true.
Proof.
  destruct r as [meth path q pf]. cbn [Method Path]. intros -> ->.
  split; reflexivity.
Qed.

Lemma firstMatch_form_without_method r :
  Method r = "" -> Path r = "/new" ->
  firstMatch main_mux r = Some (mkRoute "GET" "/new" false 1)
  /\ literalMatch r (mkRoute "GET" "/new" false 1) = true.
Proof.
  destruct r as [meth path q pf]. cbn [Method Path]. intros -> ->.
  split; reflexivity.
Qed.

(** X6: on the routes of [main], a POST to any path but [/new], and a
    request with any method but GET, POST and the empty one, get the
    not-found reply, whatever the regexp package makes of the view
    pattern. *)
Theorem main_mux_not_found st r :
  (Method r = "POST" /\ Path r <> "/new")
  \/ (Method r <> "GET" /\ Method r <> "" /\ Method r <> "POST") ->
  ServeHTTP main_mux st r
  = Done (notFoundReply (Printf (Method r +:+ ": " +:+ Path r) st) r).
Proof.
  intros Hr. rewrite ServeHTTP_firstMatch.
  assert (Hnone : firstMatch main_mux r = None); [|rewrite Hnone; reflexivity].
  unfold firstMatch.
  change (routes main_mux)
    with [mkRoute "GET" "/" false 0; mkRoute "GET" "/new" false 1;
          mkRoute "POST" "/new" false 2; mkRoute "GET" "\/([\w\-]+)" true 3].
  cbn [find].
  assert (Hget : forall u a c, routeMatches r (mkRoute "GET" u a c) = false).
  { intros u a c. apply routeMatches_needs_method. unfold methodMatches. cbn [method].
    destruct Hr as [[-> _]|(Hg & He & _)]; [reflexivity|].
    apply String.eqb_neq in Hg, He. rewrite Hg, He. reflexivity. }
  rewrite !Hget.
  assert (Hpost : routeMatches r (mkRoute "POST" "/new" false 2) = false).
  { unfold routeMatches, patternMatch, literalMatch, methodMatches.
    cbn [method uri matchable andb]. rewrite orb_false_r.
    destruct Hr as [[-> Hp]|(_ & He & Hpo)].
    - apply String.eqb_neq in Hp. rewrite Hp. reflexivity.
    - apply String.eqb_neq in He, Hpo. rewrite He, Hpo. apply andb_false_r. }
  rewrite Hpost. reflexivity.
Qed.
End MainRoutes.

Section ControllerExtras.
Context {DB : Type} {HD : Database DB} {HT : Templates} {HR : RegexpPackage}.
Variable lower : string -> string.
Implicit Types (c : Controller) (a : AppController) (w : FakeResponse) (r : Request) (db : DB).

Lemma render_appends view data w :
  match render view data w with
  | Done w' =>
      StatusCode w' = StatusCode w /\ Headers w' = Headers w
      /\ exists body, Content w' = Content w +:+ body
  | Panic msg => msg = nilDereference /\ ParseFiles (layout view) = None
  | Fatal _ => False
  end.
Proof.
  unfold render. destruct (ParseFiles (layout view)) as [t|]; [|split; reflexivity].
  cbn [Write StatusCode Headers Content]. split; [reflexivity|]. split; [reflexivity|].
  eexists. rewrite !append_assoc. reflexivity.
Qed.

(** X12: the Index and View controllers, and the New controller on a
    GET, only render: they return with the controller and the database
    as they were, status and headers untouched and the body extended,
    or panic on a template that failed to parse; they never end the
    process. *)
Theorem page_is_read_only a w r db :
  rendersOnly a r = true ->
  match Run (ControllerInterface := AppController_interface lower) a w r db with
  | Done (a', w', db') =>
      a' = a /\ db' = db
      /\ StatusCode w' = StatusCode w /\ Headers w' = Headers w
      /\ exists body, Content w' = Content w +:+ body
  | Panic msg => msg = nilDereference
  | Fatal _ => False
  end.
Proof.
  intros Hr. cbn [Run AppController_interface].
  destruct a as [c|c|c]; cbn [rendersOnly] in Hr.
  - unfold IndexController_Run. pose proof (render_appends "index" None w) as Hrender.
    destruct (render "index" None w); cbn [bind]; [|tauto..].
    destruct Hrender as (? & ? & ?). auto.
  - unfold NewController_Run. rewrite Hr.
    pose proof (render_appends "new" None w) as Hrender.
    destruct (render "new" None w); cbn [bind]; [|tauto..].
    destruct Hrender as (? & ? & ?). auto.
  - unfold ViewController_Run. cbn zeta.
    pose proof (render_appends "view" (Some {| Params := params c |}) w) as Hrender.
    destruct (render "view" _ w); cbn [bind]; [|tauto..].
    destruct Hrender as (? & ? & ?). auto.
Qed.

(** X13: [Run] never changes the controller it is called on: the
    parameters stay as the last [SetParams] left them. *)
Theorem Run_keeps_controller a w r db a' w' db' :
  Run (ControllerInterface := AppController_interface lower) a w r db = Done (a', w', db') ->
  a' = a.
Proof.
  cbn [Run AppController_interface]. destruct a as [c|c|c].
  - unfold IndexController_Run. destruct (render _ _ _); cbn [bind]; [|discriminate..].
    intros [= <- _ _]. reflexivity.
  - unfold NewController_Run. destruct (String.eqb (Method r) "GET").
    + destruct (render _ _ _); cbn [bind]; [|discriminate..].
      intros [= <- _ _]. reflexivity.
    + destruct (Prepare db _) as [db1 [stmt|err]]; cbn [checkErr bind]; [|discriminate].
      destruct (slugify lower _) as [sl| |]; cbn [bind]; [|discriminate..].
      destruct (Exec db1 stmt _) as [db2 [[res|] err]]; cbn [bind]; [|discriminate].
      intros [= <- _ _]. reflexivity.
  - unfold ViewController_Run. cbn zeta. destruct (render _ _ _); cbn [bind]; [|discriminate..].
    intros [= <- _ _]. reflexivity.
Qed.

Local Abbreviation serve :=
  (@ServeHTTP AppController DB (AppController_interface lower) HR).

(** X14: on the routes of [main], when the insert statement cannot be
    prepared a POST to [/new] ends the process in [log.Fatal], through
    [checkErr], with the message [Error reported: ] followed by the
    error, whatever the form holds. *)
Theorem submission_without_statement_is_fatal (st : Server AppController DB) r c db1 err :
  Method r = "POST" -> Path r = "/new" ->
  heap st !! 2%nat = Some (NewController c) ->
  Prepare (database st) insertStatement = (db1, inr err) ->
  serve main_mux st r = Fatal ("Error reported: " +:+ err).
Proof.
  intros Hm Hp Hheap Hprep.
  destruct (firstMatch_submission r Hm Hp)
    as [Hfirst Hlit].
  rewrite ServeHTTP_firstMatch, Hfirst. unfold dispatch. rewrite Hlit.
  unfold callRun. cbn [controller heap Printf response database].
  rewrite Hheap. cbn [Run AppController_interface]. unfold NewController_Run.
  rewrite Hm. cbn [String.eqb Ascii.eqb Bool.eqb]. fold insertStatement.
  rewrite Hprep. reflexivity.
Qed.

(** X15: on the routes of [main], a request to [/new] with the empty
    method is routed to the controller of the GET route, which takes it
    for a submission: the entry is inserted and the answer is the
    redirect to the root. *)
Theorem form_without_method_inserts (st : Server AppController DB) r c db1 stmt sl db2 res err :
  Method r = "" -> Path r = "/new" ->
  heap st !! 1%nat = Some (NewController c) ->
  Prepare (database st) insertStatement = (db1, inl stmt) ->
  slugify lower (FormValue r "title") = Done sl ->
  Exec db1 stmt [sl; FormValue r "title"; FormValue r "date"; FormValue r "content"]
    = (db2, (Some res, err)) ->
  serve main_mux st r
  = Done (mkServer (heap st) (Redirect (response st) r "/" 302) db2
            (logged st ++ [": /new"]) (calls st ++ [CallRun 1])).
Proof.
  intros Hm Hp Hheap Hprep Hslug Hexec.
  destruct (firstMatch_form_without_method r Hm Hp)
    as [Hfirst Hlit].
  rewrite ServeHTTP_firstMatch, Hfirst. unfold dispatch. rewrite Hlit.
  unfold callRun. cbn [controller heap Printf response database logged calls].
  rewrite Hheap. cbn [Run AppController_interface]. unfold NewController_Run.
  rewrite Hm. cbn [String.eqb]. fold insertStatement.
  rewrite Hprep. cbn [checkErr bind]. rewrite Hslug. cbn [bind slug title date content].
  rewrite Hexec. cbn [bind]. rewrite ?Hm, ?Hp.
  rewrite (list_insert_id _ _ _ Hheap). reflexivity.
Qed.
End ControllerExtras.

(** ** The test doubles *)

Lemma afterCalls_fields f cs :
  web.Queries (afterCalls f cs) = (web.Queries f + Z.of_nat (length cs))%Z
  /\ web.ErrorAtQuery (afterCalls f cs) = web.ErrorAtQuery f
  /\ web.ErrorMode (afterCalls f cs) = web.ErrorMode f
  /\ web.ExpectedArgument (afterCalls f cs) = web.ExpectedArgument f
  /\ web.Rows (afterCalls f cs) = web.Rows f.
Proof.
  revert f. induction cs as [|c cs IH]; intros f.
  - cbn. repeat split. lia.
  - unfold afterCalls. cbn [fold_left]. fold (afterCalls
      match c with
      | DbExec sql args => (web.FakeSqlite_Exec f sql args).1
      | DbQuery sql args => (web.FakeSqlite_Query f sql args).1
      end cs).
    destruct (IH match c with
      | DbExec sql args => (web.FakeSqlite_Exec f sql args).1
      | DbQuery sql args => (web.FakeSqlite_Query f sql args).1
      end) as (Hq & He & Hm & Ha & Hr).
    rewrite Hq, He, Hm, Ha, Hr.
    destruct c as [sql args|sql args];
      unfold web.FakeSqlite_Exec, web.FakeSqlite_Query;
      destruct (web.simulatedError _ _); cbn; repeat split; lia.
Qed.

(** X16: [Exec] and [Query] count every call, failed or not: after a run
    of calls [Queries] has grown by their number. The bound keeps the
    counter, an [int] in the code, from wrapping around. *)
Theorem FakeSqlite_counts_every_call f cs :
  (web.Queries f + Z.of_nat (length cs) <= maxInt)%Z ->
  web.Queries (afterCalls f cs) = (web.Queries f + Z.of_nat (length cs))%Z.
Proof. intros _. apply afterCalls_fields. Qed.



(** X18: on a fresh double with no error mode and no expected argument,
    [ErrorAtQuery] picks one call by its number, counting calls of
    [Exec] and [Query] alike: the query made after [n] calls fails
    exactly when [ErrorAtQuery] is [n + 1], as long as the counter, an
    [int] in the code, does not wrap around. *)
Theorem FakeSqlite_ErrorAtQuery_picks_call f cs sql args :
  web.Queries f = 0%Z ->
  web.ErrorMode f = false ->
  web.ExpectedArgument f = "" ->
  (Z.of_nat (length cs) < maxInt)%Z ->
  (web.FakeSqlite_Query (afterCalls f cs) sql args).2 =
  if (web.ErrorAtQuery f =? Z.of_nat (length cs) + 1)%Z then None else Some (web.Rows f).
Proof.
  intros Hq Hm Ha _.
  destruct (afterCalls_fields f cs) as (Hq' & He' & Hm' & Ha' & Hr').
  unfold web.FakeSqlite_Query, web.simulatedError.
  cbn [web.countQuery web.ErrorMode web.ErrorAtQuery web.Queries web.ExpectedArgument web.Rows].
  rewrite Hq', He', Hm', Ha', Hr', Hq, Hm, Ha. cbn [orb String.eqb negb andb].
  rewrite orb_false_r. rewrite Z.add_0_l.
  destruct (web.ErrorAtQuery f =? Z.of_nat (length cs) + 1)%Z; reflexivity.
Qed.

Lemma advance_single k n :
  advance k (web.MockJournalSingleRow n) = web.MockJournalSingleRow (n + Z.of_nat k).
Proof.
  induction k as [|k IH].
  - cbn. f_equal. lia.
  - change (advance (S k) (web.MockJournalSingleRow n))
      with ((web.MockRows_Next (advance k (web.MockJournalSingleRow n))).1).
    rewrite IH. cbn. f_equal. lia.
Qed.

(** X19: from a fresh [MockJournalSingleRow], the first [Next] finds a
    row, which [Scan] reads as the fixed journal; every later [Next]
    finds none, and [Scan] then leaves the destinations alone, as long
    as [RowNumber], an [int] in the code, does not wrap around. *)
Theorem MockJournalSingleRow_one_row k dest :
  (Z.of_nat k < maxInt)%Z ->
  let m := advance k (web.MockJournalSingleRow 0) in
  (web.MockRows_Next m).2 = bool_decide (k = 0%nat)
  /\ web.MockRows_Scan (web.MockRows_Next m).1 dest
     = if bool_decide (k = 0%nat)
       then mkJournal 1 "slug" "Title" "2018-02-01" "Content" else dest.
Proof.
  intros _ m. unfold m. rewrite advance_single. cbn [web.MockRows_Next web.MockRows_Scan fst snd].
  destruct k as [|k].
  - split; reflexivity.
  - rewrite bool_decide_eq_false_2 by discriminate.
    replace (0 + Z.of_nat (S k) + 1 <? 2)%Z with false by (symmetry; apply Z.ltb_ge; lia).
    replace (0 + Z.of_nat (S k) + 1 =? 1)%Z with false by (symmetry; apply Z.eqb_neq; lia).
    split; reflexivity.
Qed.

Lemma append_nil_r (s : string) : s +:+ "" = s.
Proof.
  induction s as [|c s IH]; [reflexivity|]. rewrite append_cons, IH. reflexivity.
Qed.

Lemma concat_cons (b : string) (bs : list string) :
  String.concat "" (b :: bs) = b +:+ String.concat "" bs.
Proof.
  destruct bs as [|b' bs]; [|reflexivity].
  cbn [String.concat]. rewrite append_nil_r. reflexivity.
Qed.

(** X20: writes on the response accumulate: after a run of calls of
    [Write] the content is the old content followed by the chunks in
    order, and status and headers are untouched. *)
Theorem FakeResponse_writes_accumulate w bs :
  let w' := fold_left Write bs w in
  Content w' = Content w +:+ String.concat "" bs
  /\ StatusCode w' = StatusCode w
  /\ Headers w' = Headers w.
Proof.
  revert w. induction bs as [|b bs IH]; intros w.
  - cbn [fold_left String.concat]. rewrite append_nil_r. repeat split.
  - cbn [fold_left]. destruct (IH (Write w b)) as (Hc & Hs & Hh).
    cbn zeta. rewrite Hc, Hs, Hh, concat_cons. cbn [Write Content StatusCode Headers].
    rewrite append_assoc. repeat split.
Qed.

(** ** The further properties on the routes of [main] and on the doubles *)

Lemma slugify_idempotent_witness :
  slugify (fun s => s) "Hello, World" = Done "hello--world"
  /\ slugify (fun s => s) "hello--world" = Done "hello--world".
Proof.
  assert (Hslug : slugify (fun s => s) "Hello, World" = Done "hello--world")
    by reflexivity.
  split; [exact Hslug|].
  exact (slugify_idempotent (fun s => s) "Hello, World" "hello--world" Hslug).
Defined.

Lemma entryName_hello_world : entryName "hello-world".
Proof. split; [discriminate|]. repeat constructor. Qed.

Lemma ServeHTTP_view_params_witness :
  Method (get "/hello-world") = "GET"
  /\ Path (get "/hello-world") = "/" +:+ "hello-world"
  /\ entryName "hello-world"
  /\ "hello-world" <> "new"
  /\ ServeHTTP (H := app) main_mux start (get "/hello-world") =
     (let* st1 := callSetParams (H := app) 3 ["/hello-world"]
                    (Printf "GET: /hello-world" start) in
      callRun (H := app) 3 st1 (get "/hello-world")).
Proof.
  assert (Hne : "hello-world" <> "new") by discriminate.
  split; [reflexivity|]. split; [reflexivity|].
  split; [exact entryName_hello_world|]. split; [exact Hne|].
  exact (ServeHTTP_view_params (HC := app) start (get "/hello-world") "hello-world"
           eq_refl eq_refl entryName_hello_world Hne).
Defined.

Lemma slug_page_is_viewable_witness :
  slugify (fun s => s) "Hello, World" = Done "hello--world"
  /\ "Hello, World" <> ""
  /\ "hello--world" <> "new"
  /\ ServeHTTP (H := app) main_mux start (get "/hello--world") =
     (let* st1 := callSetParams (H := app) 3 ["/" +:+ "hello--world"]
                    (Printf ("GET: /" +:+ "hello--world") start) in
      callRun (H := app) 3 st1 (get "/hello--world")).
Proof.
  assert (Hslug : slugify (fun s => s) "Hello, World" = Done "hello--world")
    by reflexivity.
  assert (Htitle : "Hello, World" <> "") by discriminate.
  assert (Hnew : "hello--world" <> "new") by discriminate.
  split; [exact Hslug|]. split; [exact Htitle|]. split; [exact Hnew|].
  exact (slug_page_is_viewable (HC := app) (fun s => s) "Hello, World" "hello--world"
           start (get "/hello--world") Hslug Htitle Hnew eq_refl eq_refl).
Defined.

Lemma ServeHTTP_shadowed_route_witness :
  let first := mkRoute "GET" "/new" false 1 in
  let second := mkRoute "GET" "/new" false 0 in
  method second = method first
  /\ uri second = uri first
  /\ (matchable second = true -> matchable first = true)
  /\ ServeHTTP (H := app) (mkMux ([] ++ first :: [] ++ second :: [])) start (get "/new")
     = ServeHTTP (H := app) (mkMux ([] ++ first :: [] ++ [])) start (get "/new").
Proof.
  intros first second.
  split; [reflexivity|]. split; [reflexivity|]. split; [exact (fun Hm => Hm)|].
  exact (ServeHTTP_shadowed_route (H := app) [] first [] second [] start (get "/new")
           eq_refl eq_refl (fun Hm => Hm)).
Defined.

Lemma ServeHTTP_other_controllers_untouched_witness :
  exists st',
    ServeHTTP (H := app) main_mux start (get "/hello") = Done st'
    /\ length (heap st') = 4%nat
    /\ heap st' !! 1%nat = Some (NewController (mkController [])).
Proof.
  destruct (ServeHTTP (H := app) main_mux start (get "/hello")) as [st'| |] eqn:Hserve;
    [|vm_compute in Hserve; discriminate Hserve..].
  destruct (ServeHTTP_other_controllers_untouched (H := app) main_mux start
              (get "/hello") st' Hserve) as [Hlen Hother].
  exists st'. split; [reflexivity|]. split; [exact Hlen|].
  rewrite (Hother 1%nat); [reflexivity|].
  intros rt Hrt. vm_compute in Hrt. injection Hrt as <-. discriminate.
Defined.

Lemma ServeHTTP_returns_witness :
  Forall (fun rt => is_Some (heap start !! controller rt)) (routes main_mux)
  /\ (forall ctl, exists res,
        Run (ControllerInterface := app) ctl (response start) (get "/hello")
          (database start) = Done res)
  /\ exists st', ServeHTTP (H := app) main_mux start (get "/hello") = Done st'.
Proof.
  assert (Hheap : Forall (fun rt => is_Some (heap start !! controller rt))
                    (routes main_mux)).
  { repeat (constructor; [eexists; reflexivity|]). constructor. }
  assert (Hrun : forall ctl, exists res,
            Run (ControllerInterface := app) ctl (response start) (get "/hello")
              (database start) = Done res).
  { intros [c|c|c]; eexists; reflexivity. }
  split; [exact Hheap|]. split; [exact Hrun|].
  exact (ServeHTTP_returns (H := app) main_mux start (get "/hello") Hheap Hrun).
Defined.

Lemma empty_method_served_as_GET_witness :
  Method (mkRequest "" "/new" [] []) = ""
  /\ Forall (fun rt => method rt <> "") (routes main_mux)
  /\ firstMatch main_mux (withMethod "GET" (mkRequest "" "/new" [] []))
     = Some (mkRoute "GET" "/new" false 1)
  /\ ServeHTTP (H := app) main_mux start (mkRequest "" "/new" [] [])
     = dispatch (H := app) (mkRoute "GET" "/new" false 1)
         (Printf ": /new" start) (mkRequest "" "/new" [] []).
Proof.
  assert (Hall : Forall (fun rt => method rt <> "") (routes main_mux)).
  { repeat (constructor; [discriminate|]). constructor. }
  split; [reflexivity|]. split; [exact Hall|]. split; [reflexivity|].
  exact (empty_method_served_as_GET (H := app) main_mux start
           (mkRequest "" "/new" [] []) eq_refl Hall).
Defined.

Lemma main_mux_not_found_witness :
  (Method (mkRequest "POST" "/" [] []) = "POST" /\ Path (mkRequest "POST" "/" [] []) <> "/new")
  /\ exists st',
       ServeHTTP (H := app) main_mux start (mkRequest "POST" "/" [] []) = Done st'
       /\ StatusCode (response st') = 404%Z
       /\ calls st' = [].
Proof.
  assert (Hr : Method (mkRequest "POST" "/" [] []) = "POST"
               /\ Path (mkRequest "POST" "/" [] []) <> "/new")
    by (split; [reflexivity | discriminate]).
  split; [exact Hr|].
  eexists. split.
  - exact (main_mux_not_found (H := app) start (mkRequest "POST" "/" [] []) (or_introl Hr)).
  - split; reflexivity.
Defined.

Lemma page_is_read_only_witness :
  let a := ViewController (mkController ["/hello"]) in
  rendersOnly a (get "/hello") = true
  /\ match Run (ControllerInterface := app) a emptyResponse (get "/hello")
             (mkTableDB [] false false) with
     | Done (a', w', db') =>
         a' = a /\ db' = mkTableDB [] false false
         /\ StatusCode w' = 0%Z /\ Headers w' = ∅
         /\ exists body, Content w' = "" +:+ body
     | Panic msg => msg = nilDereference
     | Fatal _ => False
     end.
Proof.
  intros a. split; [reflexivity|].
  exact (page_is_read_only (fun s => s) a emptyResponse (get "/hello")
           (mkTableDB [] false false) eq_refl).
Defined.

Lemma Run_keeps_controller_witness :
  let a := NewController (mkController ["/old"]) in
  let r := mkRequest "POST" "/new" [] [("title", "Hello")] in
  exists a' w' db',
    Run (ControllerInterface := app) a emptyResponse r (mkTableDB [] false false)
    = Done (a', w', db')
    /\ a' = a.
Proof.
  intros a r.
  destruct (Run (ControllerInterface := app) a emptyResponse r (mkTableDB [] false false))
    as [[[a' w'] db']| |] eqn:Hrun; [|vm_compute in Hrun; discriminate Hrun..].
  exists a', w', db'. split; [reflexivity|].
  exact (Run_keeps_controller (fun s => s) a emptyResponse r
           (mkTableDB [] false false) a' w' db' Hrun).
Defined.

Lemma submission_without_statement_is_fatal_witness :
  let st := mkServer main_heap emptyResponse (mkTableDB [] true false) [] [] in
  let r := mkRequest "POST" "/new" [] [("title", "Hello")] in
  Method r = "POST" /\ Path r = "/new"
  /\ heap st !! 2%nat = Some (NewController (mkController []))
  /\ Prepare (database st) insertStatement = (mkTableDB [] true false, inr "prepare failed")
  /\ ServeHTTP (H := app) main_mux st r = Fatal ("Error reported: " +:+ "prepare failed").
Proof.
  intros st r.
  split; [reflexivity|]. split; [reflexivity|]. split; [reflexivity|].
  split; [reflexivity|].
  exact (submission_without_statement_is_fatal (fun s => s) st r (mkController [])
           (mkTableDB [] true false) "prepare failed" eq_refl eq_refl eq_refl eq_refl).
Defined.

Lemma form_without_method_inserts_witness :
  let db := mkTableDB [] false false in
  let db2 := mkTableDB [mkJournal 1 "hello" "Hello" "" ""] false false in
  let r := mkRequest "" "/new" [] [("title", "Hello")] in
  Method r = "" /\ Path r = "/new"
  /\ heap start !! 1%nat = Some (NewController (mkController []))
  /\ Prepare (database start) insertStatement = (db, inl insertStatement)
  /\ slugify (fun s => s) (FormValue r "title") = Done "hello"
  /\ Exec db insertStatement ["hello"; FormValue r "title"; FormValue r "date";
                              FormValue r "content"]
     = (db2, (Some (1%Z, 1%Z), None))
  /\ ServeHTTP (H := app) main_mux start r
     = Done (mkServer (heap start) (Redirect (response start) r "/" 302) db2
               (logged start ++ [": /new"]) (calls start ++ [CallRun 1])).
Proof.
  intros db db2 r.
  do 6 (split; [reflexivity|]).
  exact (form_without_method_inserts (fun s => s) start r (mkController []) db
           insertStatement "hello" db2 (1%Z, 1%Z) None
           eq_refl eq_refl eq_refl eq_refl eq_refl eq_refl).
Defined.

Lemma FakeSqlite_counts_every_call_witness :
  let f := TestEdit.database web.MockEmptyRows in
  let cs := [DbQuery "select" ["slug"]; DbExec "update" ["t"; "d"; "c"; "slug"]] in
  (web.Queries f + Z.of_nat (length cs) <= maxInt)%Z
  /\ web.Queries (afterCalls f cs) = 2%Z.
Proof.
  intros f cs.
  assert (Hbound : (web.Queries f + Z.of_nat (length cs) <= maxInt)%Z)
    by (vm_compute; discriminate).
  split; [exact Hbound|].
  exact (FakeSqlite_counts_every_call f cs Hbound).
Defined.


Lemma FakeSqlite_ErrorAtQuery_picks_call_witness :
  let f := web.mkFakeSqlite false false 2 false "" 0 None (web.MockJournalSingleRow 0) in
  let cs := [DbExec "update" ["t"]] in
  web.Queries f = 0%Z /\ web.ErrorMode f = false /\ web.ExpectedArgument f = ""
  /\ (Z.of_nat (length cs) < maxInt)%Z
  /\ (web.FakeSqlite_Query (afterCalls f cs) "select" ["slug"]).2 = None.
Proof.
  intros f cs.
  assert (Hbound : (Z.of_nat (length cs) < maxInt)%Z) by reflexivity.
  do 3 (split; [reflexivity|]). split; [exact Hbound|].
  exact (FakeSqlite_ErrorAtQuery_picks_call f cs "select" ["slug"]
           eq_refl eq_refl eq_refl Hbound).
Defined.

Lemma MockJournalSingleRow_one_row_witness :
  (Z.of_nat 1 < maxInt)%Z
  /\ (web.MockRows_Next (advance 1 (web.MockJournalSingleRow 0))).2 = false
  /\ web.MockRows_Scan (web.MockRows_Next (advance 1 (web.MockJournalSingleRow 0))).1
       web.emptyJournal = web.emptyJournal.
Proof.
  assert (Hbound : (Z.of_nat 1 < maxInt)%Z) by reflexivity.
  split; [exact Hbound|].
  exact (MockJournalSingleRow_one_row 1 web.emptyJournal Hbound).
Defined.
